(** * SveltyCMS authentication core: sessions, tokens, permission resolution

    A shallow embedding of the authentication and authorization code of
    SveltyCMS:

    - [src/auth/permissionCheck.ts]: the per-role permission cache, the
      self-lockout guard and [checkUserPermission];
    - [config/permissions.ts]: [PermissionType] and [getAllPermissions];
    - [src/auth/mongoDBAuth/mongoDBAuthAdapter.ts]: the MongoDB adapter
      (sessions, tokens, roles, permissions);
    - [src/auth/drizzelDBAuth/drizzleAuthAdapter.ts]: the Drizzle adapter
      (sessions and tokens);
    - [src/auth/index.ts]: the [Auth] class;
    - [src/auth/mongoDBAuth/userAdapter.ts]: [UserAdapter];
    - [src/databases/mongodb/mongoDBAdapter.ts]: [connect].

    Conventions.  A collection or table is the list of its documents in
    storage order; a query returns the first document that matches.  A
    [Date] is its number of milliseconds, an integer; every [new Date()] or
    [Date.now()] of the code is an argument [now] of the embedded function.
    An [async] function is a computation in the monad [M]: it threads the
    state it works on and either returns a value or throws.  Values of the
    string enums are their strings.  The [logger] lines of
    [permissionCheck.ts] are kept (they tell the branches apart); those of
    the adapters are write-only and are left out. *)

From stdpp Require Import gmap strings list.
From Equations Require Import Equations.
From Stdlib Require Import ZArith.

Local Open Scope Z_scope.

(** ** Data model *)

(** [PermissionType] of [config/permissions.ts]. *)
Module PermissionType.
Definition COLLECTION : string := "collection".
Definition USER : string := "user".
Definition CONFIGURATION : string := "configuration".
Definition SYSTEM : string := "system".
End PermissionType.

(** [PermissionAction] of [config/permissions.ts]. *)
Module PermissionAction.
Definition CREATE : string := "create".
Definition READ : string := "read".
Definition UPDATE : string := "update".
Definition DELETE : string := "delete".
Definition MANAGE : string := "manage".
Definition SHARE : string := "share".
Definition ACCESS : string := "access".
End PermissionAction.

Module Permission.
Record t : Type := mk {
  _id : string;
  name : string;
  action : string;
  contextType : string;
  description : string
}.
End Permission.

(** The interface [PermissionConfig] of [permissionCheck.ts]. *)
Module PermissionConfig.
Record t : Type := mk {
  _id : string;
  name : string;
  contextId : string;
  action : string;
  contextType : string;
  requiredRole : option string;
  description : option string
}.
End PermissionConfig.

Module Role.
Record t : Type := mk {
  _id : string;
  name : string;
  description : string;
  permissions : list string   (* permission ids *)
}.
End Role.

(** [Partial<Role>] and [Partial<Permission>] as the argument of an update:
  the fields that are present. *)
Module RolePatch.
Record t : Type := mk {
  name : option string;
  description : option string;
  permissions : option (list string)
}.
End RolePatch.

Module PermissionPatch.
Record t : Type := mk {
  name : option string;
  action : option string;
  contextType : option string;
  description : option string
}.
End PermissionPatch.

(** A user document.  [_id] is optional: the object a caller hands to
  [updateUserAttributes] or [checkUserPermission] need not carry one;
  [role] is the primary role name read by [checkUserPermission], [roles] and
  [permissions] are the references the MongoDB adapter populates. *)
Module User.
Record t : Type := mk {
  _id : option string;
  email : string;
  password : option string;
  role : string;
  roles : list string;        (* role ids *)
  permissions : list string   (* permission ids *)
}.
End User.

(** [Partial<User>] as the argument of an update. *)
Module UserPatch.
Record t : Type := mk {
  email : option string;
  password : option string;
  role : option string
}.
End UserPatch.

Module Session.
Record t : Type := mk {
  _id : string;
  user_id : string;
  expires : Z
}.
End Session.

(** A token document.  The MongoDB adapter writes [email] and no [type];
  the Drizzle adapter writes [type] and no [email]. *)
Module Token.
Record t : Type := mk {
  user_id : string;
  token : string;
  email : option string;
  type : option string;
  expires : Z
}.
End Token.

(** ** Effects *)

Inductive JsError : Type :=
| Error (message : string)
| TypeError (message : string).

Definition message (e : JsError) : string :=
  match e with Error m | TypeError m => m end.

Inductive Outcome (A : Type) : Type :=
| Returned (a : A)
| Thrown (e : JsError).
Arguments Returned {A} a.
Arguments Thrown {A} e.

(** A computation over a state [S]: state changes made before a throw
    stay. *)
Definition M (S A : Type) : Type := S → Outcome A * S.

#[global] Instance M_ret {S} : MRet (M S) := λ A a s, (Returned a, s).
#[global] Instance M_bind {S} : MBind (M S) := λ A B f m s,
  match m s with
  | (Returned a, s') => f a s'
  | (Thrown e, s') => (Thrown e, s')
  end.

Definition throw {S A} (e : JsError) : M S A := λ s, (Thrown e, s).
Definition gets {S A} (f : S → A) : M S A := λ s, (Returned (f s), s).
Definition modify {S} (f : S → S) : M S unit := λ s, (Returned tt, f s).

(** [try { m } catch (error) { h error }] *)
Definition try_catch {S A} (m : M S A) (h : JsError → M S A) : M S A := λ s,
  match m s with
  | (Returned a, s') => (Returned a, s')
  | (Thrown e, s') => h e s'
  end.

Inductive Level : Type := error | warn | info | debug.

Record LogEntry : Type := { level : Level; text : string }.

(** ** The process state

    The collections of the auth models (the tables, for the Drizzle
    adapter: column [id] is [_id] and [userId] is [user_id]), the
    module-level [rolePermissionCache] of [permissionCheck.ts] and the
    log. *)
Record World : Type := mkWorld {
  UserModel : list User.t;
  SessionModel : list Session.t;
  TokenModel : list Token.t;
  RoleModel : list Role.t;
  PermissionModel : list Permission.t;
  rolePermissionCache : gmap string (list Permission.t);
  logs : list LogEntry
}.

Definition set_cache (f : gmap string (list Permission.t) → gmap string (list Permission.t))
    (w : World) : World :=
  mkWorld (UserModel w) (SessionModel w) (TokenModel w) (RoleModel w)
          (PermissionModel w) (f (rolePermissionCache w)) (logs w).

Definition set_logs (f : list LogEntry → list LogEntry) (w : World) : World :=
  mkWorld (UserModel w) (SessionModel w) (TokenModel w) (RoleModel w)
          (PermissionModel w) (rolePermissionCache w) (f (logs w)).

Definition set_users (f : list User.t → list User.t) (w : World) : World :=
  mkWorld (f (UserModel w)) (SessionModel w) (TokenModel w) (RoleModel w)
          (PermissionModel w) (rolePermissionCache w) (logs w).

Definition set_roles (f : list Role.t → list Role.t) (w : World) : World :=
  mkWorld (UserModel w) (SessionModel w) (TokenModel w) (f (RoleModel w))
          (PermissionModel w) (rolePermissionCache w) (logs w).

Definition set_permissions (f : list Permission.t → list Permission.t) (w : World) : World :=
  mkWorld (UserModel w) (SessionModel w) (TokenModel w) (RoleModel w)
          (f (PermissionModel w)) (rolePermissionCache w) (logs w).

Definition set_sessions (f : list Session.t → list Session.t) (w : World) : World :=
  mkWorld (UserModel w) (f (SessionModel w)) (TokenModel w) (RoleModel w)
          (PermissionModel w) (rolePermissionCache w) (logs w).

Definition set_tokens (f : list Token.t → list Token.t) (w : World) : World :=
  mkWorld (UserModel w) (SessionModel w) (f (TokenModel w)) (RoleModel w)
          (PermissionModel w) (rolePermissionCache w) (logs w).

(** The logger appends one entry. *)
Definition logger (l : Level) (msg : string) : M World unit :=
  modify (set_logs (λ ls, ls ++ [{| level := l; text := msg |}])).

(** The part of [authDBInterface] that [permissionCheck.ts] calls. *)
Record authDBInterface : Type := {
  getRoleByName : string → M World (option Role.t)
}.

(** ** config/permissions.ts *)

(** [getAllPermissions].  The body in the sources is a placeholder: it
    returns the empty array, and its comment asks to replace it by the
    retrieval of "the full Permission objects", which are "stored somewhere
    else" ([permissionStore]).  That store is no part of the sources; it is
    a parameter here, and [placeholderStore] is the value of the body as
    shipped. *)
Definition getAllPermissions (permissionStore : list Permission.t) : list Permission.t :=
  permissionStore.

Definition placeholderStore : list Permission.t := [].

(** ** src/auth/permissionCheck.ts *)

Module PermissionCheck.

Record Decision : Type := { hasPermission : bool; isRateLimited : bool }.

Definition includes (l : list string) (x : string) : bool :=
  existsb (String.eqb x) l.

Section Resolver.
(** [authAdapter] is the import from [@src/databases/db]; it is
    [None] while the adapter is not initialised. *)
Variable authAdapter : option authDBInterface.
Variable permissionStore : list Permission.t.

Definition getCachedRolePermissions (role : string) : M World (list Permission.t) :=
  cache ← gets rolePermissionCache;
  match cache !! role with
  | Some cached => mret cached
  | None =>
    match authAdapter with
    | None =>
      logger error "Authentication adapter is not initialized.";;
      throw (Error "Authentication adapter is not initialized.")
    | Some adapter =>
      try_catch
        (let allPermissions := getAllPermissions permissionStore in
         userRole ← getRoleByName adapter role;
         match userRole with
         | None =>
           logger warn ("Role " +:+ role +:+ " not found");;
           mret []
         | Some userRole =>
           let rolePermissions :=
             List.filter (λ permission,
               includes (Role.permissions userRole) (Permission._id permission))
               allPermissions in
           modify (set_cache (λ c, <[role := rolePermissions]> c));;
           mret rolePermissions
         end)
        (λ e,
           logger error ("Error fetching role permissions: " +:+ message e);;
           throw e)
    end
  end.

(** The predicate of the [every] in [checkForSelfLockout]. *)
Definition differs (config : PermissionConfig.t) (permission : Permission.t) : bool :=
  negb (Permission._id permission =? PermissionConfig.contextId config)%string
  || negb (Permission.action permission =? PermissionConfig.action config)%string
  || negb (Permission.contextType permission =? PermissionConfig.contextType config)%string.

Definition checkForSelfLockout (user : User.t) (config : PermissionConfig.t)
    (userPermissions : list Permission.t) : bool :=
  match PermissionConfig.requiredRole config with
  | Some requiredRole =>
    if negb (requiredRole =? "admin")%string && (User.role user =? requiredRole)%string
    then forallb (differs config) userPermissions
    else false
  | None => false   (* [user.role === undefined] is false *)
  end.

(** The predicate of the [some] in [checkUserPermission]. *)
Definition satisfies (config : PermissionConfig.t) (permission : Permission.t) : bool :=
  (Permission._id permission =? PermissionConfig.contextId config)%string
  && (Permission.action permission =? PermissionConfig.action config)%string
  && ((Permission.contextType permission =? PermissionConfig.contextType config)%string
      || (Permission.contextType permission =? PermissionType.SYSTEM)%string).

Definition deny : Decision := {| hasPermission := false; isRateLimited := false |}.
Definition grant : Decision := {| hasPermission := true; isRateLimited := false |}.

Definition checkUserPermission (user : User.t) (config : PermissionConfig.t)
    : M World Decision :=
  try_catch
    (if (User.role user =? "admin")%string then mret grant
     else
       match authAdapter with
       | None =>
         logger error "Authentication adapter is not initialized.";;
         mret deny
       | Some _ =>
         userPermissions ← getCachedRolePermissions (User.role user);
         if checkForSelfLockout user config userPermissions then
           logger error ("User " +:+ User.email user
                         +:+ " attempted a self-lockout by role change");;
           mret deny
         else
           let hasPermission := existsb (satisfies config) userPermissions in
           (if negb hasPermission then
              logger warn ("User " +:+ User.email user
                           +:+ " lacks required permission for "
                           +:+ PermissionConfig.contextId config)
            else mret tt);;
           mret {| hasPermission := hasPermission; isRateLimited := false |}
       end)
    (λ e,
       logger error ("Error checking user permission: " +:+ message e);;
       mret deny).
End Resolver.

End PermissionCheck.

(** ** Queries on a collection *)

Definition findOne {A} (q : A → bool) (docs : list A) : option A := List.find q docs.

Definition exists_ {A} (q : A → bool) (docs : list A) : bool := existsb q docs.

(** [deleteOne] and [findOneAndDelete] remove the first match. *)
Fixpoint deleteOne {A} (q : A → bool) (docs : list A) : list A :=
  match docs with
  | [] => []
  | d :: ds => if q d then ds else d :: deleteOne q ds
  end.

(** [deleteMany], and SQL [DELETE ... WHERE]: every match goes. *)
Definition deleteMany {A} (q : A → bool) (docs : list A) : list A :=
  List.filter (λ d, negb (q d)) docs.

(** [updateOne] and [findByIdAndUpdate] change the first match. *)
Fixpoint updateOne {A} (q : A → bool) (f : A → A) (docs : list A) : list A :=
  match docs with
  | [] => []
  | d :: ds => if q d then f d :: ds else d :: updateOne q f ds
  end.

(** [$set] of an optional field of a partial document. *)
Definition assign {A} (new : option A) (old : A) : A := default old new.

(** [String.prototype.toLowerCase], on the ASCII letters. *)
Definition lower_ascii (c : Ascii.ascii) : Ascii.ascii :=
  let n := Ascii.nat_of_ascii c in
  if ((65 <=? n) && (n <=? 90))%nat then Ascii.ascii_of_nat (n + 32) else c.

Fixpoint toLowerCase (s : string) : string :=
  match s with
  | EmptyString => EmptyString
  | String c s' => String (lower_ascii c) (toLowerCase s')
  end.

(** JavaScript truthiness of an optional string: [undefined] and the
    empty string are falsy. *)
Definition truthy (s : option string) : bool :=
  match s with
  | Some s => negb (s =? "")%string
  | None => false
  end.

(** ** src/auth/mongoDBAuth/mongoDBAuthAdapter.ts *)

Module MongoDBAuthAdapter.

Definition by_id (user_id : string) (u : User.t) : bool :=
  bool_decide (User._id u = Some user_id).

Definition getUserById (user_id : string) : M World (option User.t) :=
  gets (λ w, findOne (by_id user_id) (UserModel w)).

(** *** Sessions *)

(** [newId] is the [_id] Mongoose gives the new document. *)
Definition createSession (now : Z) (newId : string) (user_id : string) (expires : Z)
    : M World Session.t :=
  let expiresAt := now + expires in
  let session := Session.mk newId user_id expiresAt in
  modify (set_sessions (λ ss, ss ++ [session]));;
  mret session.

Definition destroySession (session_id : string) : M World unit :=
  modify (set_sessions (deleteOne (λ s, (Session._id s =? session_id)%string))).

Definition deleteExpiredSessions (now : Z) : M World nat :=
  before ← gets SessionModel;
  modify (set_sessions (deleteMany (λ s, Session.expires s <=? now)));;
  after ← gets SessionModel;
  mret (length before - length after)%nat.

Definition validateSession (now : Z) (session_id : string) : M World (option User.t) :=
  session ← gets (λ w, findOne (λ s, (Session._id s =? session_id)%string) (SessionModel w));
  match session with
  | None => mret None
  | Some session =>
    if Session.expires session <=? now then
      modify (set_sessions (deleteOne (λ s, (Session._id s =? session_id)%string)));;
      mret None
    else
      gets (λ w, findOne (by_id (Session.user_id session)) (UserModel w))
  end.

Definition invalidateAllUserSessions (user_id : string) : M World unit :=
  modify (set_sessions (deleteMany (λ s, (Session.user_id s =? user_id)%string))).

Definition getActiveSessions (now : Z) (user_id : string) : M World (list Session.t) :=
  gets (λ w, List.filter
               (λ s, (Session.user_id s =? user_id)%string && (now <? Session.expires s))
               (SessionModel w)).

(** *** Tokens *)

Record TokenStatus : Type := { status : bool; reason : string }.

Definition token_query (token user_id : string) (t : Token.t) : bool :=
  (Token.token t =? token)%string && (Token.user_id t =? user_id)%string.

(** [tokenString] is the value of [crypto.randomBytes(16).toString('hex')]. *)
Definition createToken (now : Z) (tokenString : string) (user_id email : string) (expires : Z)
    : M World string :=
  modify (set_tokens (λ ts,
    ts ++ [Token.mk user_id tokenString (Some email) None (now + expires)]));;
  mret tokenString.

(** The code reads the clock twice, once for the message and once for
    the flag: [now] and [now']. *)
Definition validateToken (now now' : Z) (token user_id : string) : M World TokenStatus :=
  tokenDoc ← gets (λ w, findOne (token_query token user_id) (TokenModel w));
  match tokenDoc with
  | Some tokenDoc =>
    let message := if now <? Token.expires tokenDoc then "Token is valid" else "Token is expired" in
    mret {| status := now' <? Token.expires tokenDoc; reason := message |}
  | None => mret {| status := false; reason := "Token does not exist" |}
  end.

Definition consumeToken (now now' : Z) (token user_id : string) : M World TokenStatus :=
  tokenDoc ← gets (λ w, findOne (token_query token user_id) (TokenModel w));
  modify (set_tokens (deleteOne (token_query token user_id)));;
  match tokenDoc with
  | Some tokenDoc =>
    let message := if now <? Token.expires tokenDoc then "Token is valid" else "Token is expired" in
    mret {| status := now' <? Token.expires tokenDoc; reason := message |}
  | None => mret {| status := false; reason := "Token does not exist" |}
  end.

Definition deleteExpiredTokens (now : Z) : M World nat :=
  before ← gets TokenModel;
  modify (set_tokens (deleteMany (λ t, Token.expires t <=? now)));;
  after ← gets TokenModel;
  mret (length before - length after)%nat.

(** *** Roles and permissions *)

(** [populate]: each reference is replaced by the document it names;
    references that name no document are dropped. *)
Definition populate {A} (key : A → string) (docs : list A) (refs : list string) : list A :=
  omap (λ ref, findOne (λ d, (key d =? ref)%string) docs) refs.

Definition role_by_id (role_id : string) (r : Role.t) : bool :=
  (Role._id r =? role_id)%string.

Definition permission_by_id (permission_id : string) (p : Permission.t) : bool :=
  (Permission._id p =? permission_id)%string.

(** A role read with [populate('permissions')] and returned [as Role]:
    its permissions are those that exist, named by their ids. *)
Definition populated (w : World) (role : Role.t) : Role.t :=
  Role.mk (Role._id role) (Role.name role) (Role.description role)
    (Permission._id <$> populate Permission._id (PermissionModel w) (Role.permissions role)).

Definition getRoleById (role_id : string) : M World (option Role.t) :=
  gets (λ w, populated w <$> findOne (role_by_id role_id) (RoleModel w)).

Definition getRoleByName (name : string) : M World (option Role.t) :=
  gets (λ w, populated w <$> findOne (λ r, (Role.name r =? name)%string) (RoleModel w)).

Definition getAllRoles : M World (list Role.t) :=
  gets (λ w, populated w <$> RoleModel w).

Definition getAllPermissions : M World (list Permission.t) :=
  gets PermissionModel.

Definition getPermissionsForRole (role_id : string) : M World (list Permission.t) :=
  gets (λ w, match findOne (role_by_id role_id) (RoleModel w) with
             | Some role => populate Permission._id (PermissionModel w) (Role.permissions role)
             | None => []
             end).

(** The query of [checkUserPermission] populates [roles] and their
    permissions, not [user.permissions]: the elements of the latter stay
    references, and the [action] of a reference is [undefined]. *)
Definition action_of_reference (ref : string) : option string := None.

Definition checkUserPermission (user_id requiredAction : string) : M World bool :=
  gets (λ w,
    match findOne (by_id user_id) (UserModel w) with
    | None => false
    | Some user =>
      let roles := populate Role._id (RoleModel w) (User.roles user) in
      let isAdmin := existsb (λ role, (toLowerCase (Role.name role) =? "admin")%string) roles in
      if isAdmin then true
      else
        let hasDirectPermission :=
          existsb (λ p, bool_decide (action_of_reference p = Some requiredAction))
                  (User.permissions user) in
        if hasDirectPermission then true
        else
          existsb (λ role,
            existsb (λ p, (Permission.action p =? requiredAction)%string)
                    (populate Permission._id (PermissionModel w) (Role.permissions role)))
            roles
    end).

Definition createRole (roleData : Role.t) (currentUserId : string) : M World Role.t :=
  allowed ← checkUserPermission currentUserId "manage_roles";
  if negb allowed then
    throw (Error "Unauthorized: User does not have permission to manage roles")
  else
    modify (set_roles (λ rs, rs ++ [roleData]));;
    mret roleData.

Definition set_role (roleData : RolePatch.t) (r : Role.t) : Role.t :=
  Role.mk (Role._id r)
    (assign (RolePatch.name roleData) (Role.name r))
    (assign (RolePatch.description roleData) (Role.description r))
    (assign (RolePatch.permissions roleData) (Role.permissions r)).

Definition updateRole (role_id : string) (roleData : RolePatch.t) (currentUserId : string)
    : M World unit :=
  allowed ← checkUserPermission currentUserId "manage_roles";
  if negb allowed then
    throw (Error "Unauthorized: User does not have permission to manage roles")
  else
    modify (set_roles (updateOne (role_by_id role_id) (set_role roleData))).

Definition deleteRole (role_id : string) (currentUserId : string) : M World unit :=
  allowed ← checkUserPermission currentUserId "manage_roles";
  if negb allowed then
    throw (Error "Unauthorized: User does not have permission to manage roles")
  else
    modify (set_roles (deleteOne (role_by_id role_id))).

Definition createPermission (permissionData : Permission.t) (currentUserId : string)
    : M World Permission.t :=
  allowed ← checkUserPermission currentUserId "manage_permissions";
  if negb allowed then
    throw (Error "Unauthorized: User does not have permission to manage permissions")
  else
    modify (set_permissions (λ ps, ps ++ [permissionData]));;
    mret permissionData.

Definition set_permission (permissionData : PermissionPatch.t) (p : Permission.t)
    : Permission.t :=
  Permission.mk (Permission._id p)
    (assign (PermissionPatch.name permissionData) (Permission.name p))
    (assign (PermissionPatch.action permissionData) (Permission.action p))
    (assign (PermissionPatch.contextType permissionData) (Permission.contextType p))
    (assign (PermissionPatch.description permissionData) (Permission.description p)).

Definition updatePermission (permission_id : string) (permissionData : PermissionPatch.t)
    (currentUserId : string) : M World unit :=
  allowed ← checkUserPermission currentUserId "manage_permissions";
  if negb allowed then
    throw (Error "Unauthorized: User does not have permission to manage permissions")
  else
    modify (set_permissions (updateOne (permission_by_id permission_id)
                                       (set_permission permissionData))).

Definition deletePermission (permission_id : string) (currentUserId : string) : M World unit :=
  allowed ← checkUserPermission currentUserId "manage_permissions";
  if negb allowed then
    throw (Error "Unauthorized: User does not have permission to manage permissions")
  else
    modify (set_permissions (deleteOne (permission_by_id permission_id))).

(** [$addToSet] and [$pull] *)
Definition addToSet (x : string) (l : list string) : list string :=
  if existsb (String.eqb x) l then l else l ++ [x].

Definition pull (x : string) (l : list string) : list string :=
  List.filter (λ y, negb (y =? x)%string) l.

Definition with_permissions (f : list string → list string) (r : Role.t) : Role.t :=
  Role.mk (Role._id r) (Role.name r) (Role.description r) (f (Role.permissions r)).

(** [!(await check('manage_roles')) || !(await check('manage_permissions'))] *)
Definition may_manage_both (currentUserId : string) : M World bool :=
  roles_ok ← checkUserPermission currentUserId "manage_roles";
  if negb roles_ok then mret false
  else checkUserPermission currentUserId "manage_permissions".

Definition assignPermissionToRole (role_id permission_id currentUserId : string)
    : M World unit :=
  allowed ← may_manage_both currentUserId;
  if negb allowed then
    throw (Error "Unauthorized: User does not have permission to assign permissions to roles")
  else
    roleExists ← gets (λ w, exists_ (role_by_id role_id) (RoleModel w));
    if negb roleExists then throw (Error ("Role " +:+ role_id +:+ " not found"))
    else
      permissionExists ← gets (λ w, exists_ (permission_by_id permission_id) (PermissionModel w));
      if negb permissionExists then
        throw (Error ("Permission " +:+ permission_id +:+ " not found"))
      else
        modify (set_roles (updateOne (role_by_id role_id)
                                     (with_permissions (addToSet permission_id))));;
        result ← gets (λ w, findOne (role_by_id role_id) (RoleModel w));
        match result with
        | Some _ => mret tt
        | None => throw (Error ("Unexpected: Role " +:+ role_id +:+ " not found"))
        end.

Definition removePermissionFromRole (role_id permission_id currentUserId : string)
    : M World unit :=
  allowed ← may_manage_both currentUserId;
  if negb allowed then
    throw (Error "Unauthorized: User does not have permission to remove permissions from roles")
  else
    modify (set_roles (updateOne (role_by_id role_id)
                                 (with_permissions (pull permission_id)))).

(** *** Further methods of the adapter *)

Definition set_expires (expires : Z) (s : Session.t) : Session.t :=
  Session.mk (Session._id s) (Session.user_id s) expires.

(** [findByIdAndUpdate(session_id, { $set: { expires } }, { new: true })]:
    the updated document, or [null]. *)
Definition updateSessionExpiry (now : Z) (session_id : string) (newExpiry : Z)
    : M World Session.t :=
  let newExpiryDate := now + newExpiry in
  modify (set_sessions (updateOne (λ s, (Session._id s =? session_id)%string)
                                  (set_expires newExpiryDate)));;
  updatedSession ← gets (λ w,
    findOne (λ s, (Session._id s =? session_id)%string) (SessionModel w));
  match updatedSession with
  | None => throw (Error "Session not found")
  | Some updatedSession => mret updatedSession
  end.

Definition getAllTokens : M World (list Token.t) := gets TokenModel.

Definition deleteUser (user_id : string) : M World unit :=
  modify (set_users (deleteOne (by_id user_id))).

Definition with_roles (f : list string → list string) (u : User.t) : User.t :=
  User.mk (User._id u) (User.email u) (User.password u) (User.role u)
          (f (User.roles u)) (User.permissions u).

Definition with_user_permissions (f : list string → list string) (u : User.t) : User.t :=
  User.mk (User._id u) (User.email u) (User.password u) (User.role u)
          (User.roles u) (f (User.permissions u)).

Definition assignRoleToUser (user_id role_id : string) : M World unit :=
  modify (set_users (updateOne (by_id user_id) (with_roles (addToSet role_id)))).

Definition removeRoleFromUser (user_id role_id : string) : M World unit :=
  modify (set_users (updateOne (by_id user_id) (with_roles (pull role_id)))).

Definition assignPermissionToUser (user_id permission_id : string) : M World unit :=
  modify (set_users (updateOne (by_id user_id)
                               (with_user_permissions (addToSet permission_id)))).

Definition removePermissionFromUser (user_id permission_id : string) : M World unit :=
  modify (set_users (updateOne (by_id user_id)
                               (with_user_permissions (pull permission_id)))).

Definition getRolesForUser (user_id : string) : M World (list Role.t) :=
  gets (λ w, match findOne (by_id user_id) (UserModel w) with
             | Some user => populate Role._id (RoleModel w) (User.roles user)
             | None => []
             end).

Definition checkUserRole (user_id role_name : string) : M World bool :=
  gets (λ w, match findOne (by_id user_id) (UserModel w) with
             | None => false
             | Some user =>
               existsb (λ role, (Role.name role =? role_name)%string)
                       (populate Role._id (RoleModel w) (User.roles user))
             end).

(** *** [initializeDefaultRolesAndPermissions]

    The method calls [this.createRole(roleData as Role)] with no second
    argument: [currentUserId] is [undefined].  Mongoose turns
    [findById(undefined)] into a query for [_id: null], which finds no
    document, so the permission check of such a call reads no user. *)
Definition checkUserPermission_undefined (requiredAction : string) : M World bool :=
  gets (λ w,
    match findOne (λ _, false) (UserModel w) with
    | None => false
    | Some user =>
      let roles := populate Role._id (RoleModel w) (User.roles user) in
      let isAdmin := existsb (λ role, (toLowerCase (Role.name role) =? "admin")%string) roles in
      if isAdmin then true
      else
        let hasDirectPermission :=
          existsb (λ p, bool_decide (action_of_reference p = Some requiredAction))
                  (User.permissions user) in
        if hasDirectPermission then true
        else
          existsb (λ role,
            existsb (λ p, (Permission.action p =? requiredAction)%string)
                    (populate Permission._id (PermissionModel w) (Role.permissions role)))
            roles
    end).

(** [createRole(roleData)] with [currentUserId] undefined. *)
Definition createRole_undefined (roleData : Role.t) : M World Role.t :=
  allowed ← checkUserPermission_undefined "manage_roles";
  if negb allowed then
    throw (Error "Unauthorized: User does not have permission to manage roles")
  else
    modify (set_roles (λ rs, rs ++ [roleData]));;
    mret roleData.

(** [Promise.all(items.map(f))] of calls that each run to their end. *)
Fixpoint all {A B} (f : A → M World B) (items : list A) : M World (list B) :=
  match items with
  | [] => mret []
  | x :: xs => y ← f x; ys ← all f xs; mret (y :: ys)
  end.

(** The four default roles; [ids] are the [_id]s Mongoose gives them. *)
Definition defaultRoles (ids : string * string * string * string) : list Role.t :=
  let '(a, b, c, d) := ids in
  [ Role.mk a "admin" "Administrator with all permissions" [];
    Role.mk b "developer" "Developer with elevated permissions" [];
    Role.mk c "editor" "Content editor" [];
    Role.mk d "user" "Regular user" [] ].

(** [rest] is what the method does once the roles are created: it
    creates the default permissions and assigns them to the admin role. *)
Definition initializeDefaultRolesAndPermissions (ids : string * string * string * string)
    (rest : list Role.t → M World unit) : M World unit :=
  try_catch
    (existingRoles ← getAllRoles;
     existingPermissions ← getAllPermissions;
     if bool_decide (length existingRoles = 0%nat)
        && bool_decide (length existingPermissions = 0%nat)
     then
       createdRoles ← all createRole_undefined (defaultRoles ids);
       rest createdRoles
     else mret tt)
    (λ e, throw e).

End MongoDBAuthAdapter.

(** The MongoDB adapter as [permissionCheck.ts] sees it. *)
Definition mongoAdapter : authDBInterface :=
  {| getRoleByName := MongoDBAuthAdapter.getRoleByName |}.

(** The mutating calls of the role and permission registry, one
    constructor per method of the adapter. *)
Inductive RegistryCall : Type :=
| CreateRole (roleData : Role.t) (currentUserId : string)
| UpdateRole (role_id : string) (roleData : RolePatch.t) (currentUserId : string)
| DeleteRole (role_id currentUserId : string)
| CreatePermission (permissionData : Permission.t) (currentUserId : string)
| UpdatePermission (permission_id : string) (permissionData : PermissionPatch.t)
    (currentUserId : string)
| DeletePermission (permission_id currentUserId : string)
| AssignPermissionToRole (role_id permission_id currentUserId : string)
| RemovePermissionFromRole (role_id permission_id currentUserId : string).

Definition perform (c : RegistryCall) : M World unit :=
  match c with
  | CreateRole roleData u => MongoDBAuthAdapter.createRole roleData u;; mret tt
  | UpdateRole role_id roleData u => MongoDBAuthAdapter.updateRole role_id roleData u
  | DeleteRole role_id u => MongoDBAuthAdapter.deleteRole role_id u
  | CreatePermission permissionData u =>
    MongoDBAuthAdapter.createPermission permissionData u;; mret tt
  | UpdatePermission permission_id permissionData u =>
    MongoDBAuthAdapter.updatePermission permission_id permissionData u
  | DeletePermission permission_id u => MongoDBAuthAdapter.deletePermission permission_id u
  | AssignPermissionToRole role_id permission_id u =>
    MongoDBAuthAdapter.assignPermissionToRole role_id permission_id u
  | RemovePermissionFromRole role_id permission_id u =>
    MongoDBAuthAdapter.removePermissionFromRole role_id permission_id u
  end.

(** ** src/auth/drizzelDBAuth/drizzleAuthAdapter.ts *)

Module DrizzleAuthAdapter.

(** The SQL condition [expires > CURRENT_TIMESTAMP] of [validateSession]
    and [getActiveSessions], at the time [now].  Schema.ts declares the
    column as [integer('expires', { mode: 'timestamp' })], so a row
    holds an INTEGER; [CURRENT_TIMESTAMP] is the TEXT
    'YYYY-MM-DD HH:MM:SS', which is no numeric literal and so stays
    TEXT under the column's affinity.  SQLite orders every INTEGER
    before every TEXT: the condition holds for no row, at no time. *)
Definition expires_gt_CURRENT_TIMESTAMP (expires now : Z) : bool := false.

Definition getUserById (user_id : string) : M World (option User.t) :=
  gets (λ w, findOne (MongoDBAuthAdapter.by_id user_id) (UserModel w)).

Definition validateSession (now : Z) (session_id : string) : M World (option User.t) :=
  session ← gets (λ w,
    findOne (λ s, (Session._id s =? session_id)%string
                  && expires_gt_CURRENT_TIMESTAMP (Session.expires s) now)
            (SessionModel w));
  match session with
  | None => mret None
  | Some session => getUserById (Session.user_id session)
  end.

Definition getActiveSessions (now : Z) (user_id : string) : M World (list Session.t) :=
  gets (λ w, List.filter
               (λ s, (Session.user_id s =? user_id)%string
                     && expires_gt_CURRENT_TIMESTAMP (Session.expires s) now)
               (SessionModel w)).

Definition token_query (token user_id type : string) (t : Token.t) : bool :=
  (Token.token t =? token)%string && (Token.user_id t =? user_id)%string
  && bool_decide (Token.type t = Some type).

(** [tokenDoc.expires > new Date()] is a comparison of two dates in
    JavaScript, at the one reading [now] of the clock. *)
Definition validateToken (now : Z) (token user_id type : string)
    : M World MongoDBAuthAdapter.TokenStatus :=
  tokenDoc ← gets (λ w, findOne (token_query token user_id type) (TokenModel w));
  match tokenDoc with
  | Some tokenDoc =>
    if now <? Token.expires tokenDoc
    then mret (MongoDBAuthAdapter.Build_TokenStatus true "Token is valid")
    else mret (MongoDBAuthAdapter.Build_TokenStatus false "Token is expired")
  | None => mret (MongoDBAuthAdapter.Build_TokenStatus false "Token does not exist")
  end.

(** [DELETE ... WHERE ... RETURNING]: every matching row is deleted and
    returned; the code looks at the first. *)
Definition consumeToken (now : Z) (token user_id type : string)
    : M World MongoDBAuthAdapter.TokenStatus :=
  deleted ← gets (λ w, List.filter (token_query token user_id type) (TokenModel w));
  modify (set_tokens (deleteMany (token_query token user_id type)));;
  match deleted with
  | deletedToken :: _ =>
    if now <? Token.expires deletedToken
    then mret (MongoDBAuthAdapter.Build_TokenStatus true "Token is valid")
    else mret (MongoDBAuthAdapter.Build_TokenStatus false "Token is expired")
  | [] => mret (MongoDBAuthAdapter.Build_TokenStatus false "Token does not exist")
  end.

End DrizzleAuthAdapter.

(** ** src/auth/index.ts: the class [Auth] *)

Module Auth.

Section Auth.
(** [argon2.hash(_, argon2Attributes)], for the salt of the call. *)
Variable argon2_hash : string → string.
(** Whether [new mongoose.Types.ObjectId(_)] accepts the string. *)
Variable ObjectId_isValid : string → bool.

(** [id] is the [new mongoose.Types.ObjectId()] of the call. *)
Definition createUser (id : string) (email : string) (password : option string)
    (role : string) : M World User.t :=
  let hashed_password :=
    if truthy password then argon2_hash <$> password else None in
  let user := User.mk (Some id) email hashed_password role [] [] in
  modify (set_users (λ us, us ++ [user]));;
  mret user.

Definition set_user (attributes : UserPatch.t) (u : User.t) : User.t :=
  User.mk (User._id u)
    (assign (UserPatch.email attributes) (User.email u))
    (match UserPatch.password attributes with
     | Some p => Some p
     | None => User.password u
     end)
    (assign (UserPatch.role attributes) (User.role u))
    (User.roles u) (User.permissions u).

Definition same_id (user : User.t) (u : User.t) : bool :=
  bool_decide (User._id u = User._id user).

Definition updateUserAttributes (user : User.t) (attributes : UserPatch.t) : M World unit :=
  let attributes :=
    if truthy (UserPatch.password attributes) then
      UserPatch.mk (UserPatch.email attributes)
                   (argon2_hash <$> UserPatch.password attributes)
                   (UserPatch.role attributes)
    else attributes in
  modify (set_users (updateOne (same_id user) (set_user attributes))).

Definition createSession (now : Z) (id : string) (user_id : string) (expires : option Z)
    : M World Session.t :=
  let expires := default (60 * 60 * 1000) expires in
  let session := Session.mk id user_id (now + expires) in
  modify (set_sessions (λ ss, ss ++ [session]));;
  mret session.

Definition destroySession (session_id : string) : M World unit :=
  modify (set_sessions (deleteOne (λ s, (Session._id s =? session_id)%string))).

(** [delete user._id] on the document [findOne] returns.  A hydrated
    Mongoose document has no own property [_id] (the path is read
    through an accessor of the model's prototype, out of the document's
    [_doc]), so the statement removes nothing and the document is
    returned with its [_id]. *)
Definition delete_id (user : User.t) : User.t := user.

Definition validateSession (session_id : string) : M World (option User.t) :=
  if negb (ObjectId_isValid session_id) then
    throw (TypeError "Argument passed in must be a string of 12 bytes or a string of 24 hex characters")
  else
    session ← gets (λ w, findOne (λ s, (Session._id s =? session_id)%string) (SessionModel w));
    match session with
    | None => throw (TypeError "Cannot read properties of null (reading 'user_id')")
    | Some session =>
      user ← gets (λ w, findOne (MongoDBAuthAdapter.by_id (Session.user_id session))
                                (UserModel w));
      match user with
      | None => mret None
      | Some user => mret (Some (delete_id user))
      end
    end.

Definition deleteUser (id : string) : M World unit :=
  modify (set_users (deleteOne (MongoDBAuthAdapter.by_id id))).

Definition logOut (session_id : string) : M World unit :=
  modify (set_sessions (deleteOne (λ s, (Session._id s =? session_id)%string))).

(** [find({ user_id })], then one [deleteOne({ _id })] for each session
    found. *)
Definition invalidateAllUserSessions (user_id : string) : M World unit :=
  sessions ← gets (λ w,
    List.filter (λ s, (Session.user_id s =? user_id)%string) (SessionModel w));
  modify (set_sessions (λ ss,
    fold_left (λ remaining session,
                 deleteOne (λ s, (Session._id s =? Session._id session)%string) remaining)
              sessions ss)).

Definition getUserCount : M World nat := gets (λ w, length (UserModel w)).

End Auth.

End Auth.

(** ** src/auth/mongoDBAuth/userAdapter.ts *)

Module UserAdapter.

Definition createUser (userData : User.t) : M World User.t :=
  modify (set_users (λ us, us ++ [userData]));;
  mret userData.

Definition updateUserAttributes (user_id : string) (userData : UserPatch.t)
    : M World User.t :=
  modify (set_users (updateOne (MongoDBAuthAdapter.by_id user_id) (Auth.set_user userData)));;
  user ← gets (λ w, findOne (MongoDBAuthAdapter.by_id user_id) (UserModel w));
  match user with
  | Some user => mret user
  | None =>
    throw (Error ("Failed to update user attributes: User not found for ID: " +:+ user_id))
  end.

Definition set_password (newPassword : string) (u : User.t) : User.t :=
  User.mk (User._id u) (User.email u) (Some newPassword) (User.role u)
          (User.roles u) (User.permissions u).

Definition changePassword (user_id newPassword : string) : M World unit :=
  modify (set_users (updateOne (MongoDBAuthAdapter.by_id user_id) (set_password newPassword))).

Definition getUserById (user_id : string) : M World (option User.t) :=
  gets (λ w, findOne (MongoDBAuthAdapter.by_id user_id) (UserModel w)).

Definition deleteUser (user_id : string) : M World unit :=
  modify (set_users (deleteOne (MongoDBAuthAdapter.by_id user_id))).

Definition getUserByEmail (email : string) : M World (option User.t) :=
  gets (λ w, findOne (λ u, (User.email u =? email)%string) (UserModel w)).

(** [user?.role === role_name] *)
Definition checkUserRole (user_id role_name : string) : M World bool :=
  gets (λ w, match findOne (MongoDBAuthAdapter.by_id user_id) (UserModel w) with
             | Some user => (User.role user =? role_name)%string
             | None => false
             end).

End UserAdapter.

(** ** src/databases/mongodb/mongoDBAdapter.ts: [connect] *)

Module MongoDBAdapter.

(** The two settings of [privateEnv] that [connect] reads for its retries
    ([config/private] is no part of the sources). *)
Record privateEnv : Type := {
  DB_RETRY_ATTEMPTS : option Z;
  DB_RETRY_DELAY : option Z
}.

(** [x || d] on an optional number: [undefined] and [0] are falsy. *)
Definition or_number (x : option Z) (d : Z) : Z :=
  match x with
  | Some v => if v =? 0 then d else v
  | None => d
  end.

(** What [connect] does to the outside: a call of [mongoose.connect], or a
    [setTimeout] wait of the given length. *)
Inductive Event : Type :=
| Connect
| Sleep (ms : Z).

#[global] Instance Event_eq_dec : EqDecision Event.
Proof. solve_decision. Defined.

Section Connect.
Variable env : privateEnv.
(** The answer of the [k]-th call of [mongoose.connect]: [None] when the
    connection is made, the error otherwise. *)
Variable mongoose_connect : nat → option JsError.

Definition fatal (err : JsError) : JsError :=
  Error ("MongoDB adapter failed to connect after maximum retries. Error: " +:+ message err).

(** The [while (attempts > 0)] loop, entered with [k] calls already made. *)
Equations? connect_loop (attempts : Z) (k : nat) : Outcome unit * list Event
    by wf (Z.to_nat attempts) lt :=
connect_loop attempts k with decide (0 < attempts) => {
  | right _ := (Returned tt, []);
  | left _ with mongoose_connect k => {
    | None := (Returned tt, [Connect]);
    | Some err with decide (attempts - 1 <= 0) => {
      | left _ := (Thrown (fatal err), [Connect]);
      | right _ :=
        let rest := connect_loop (attempts - 1) (S k) in
        (fst rest, Connect :: Sleep (or_number (DB_RETRY_DELAY env) 3000) :: snd rest) } } }.
Proof. lia. Qed.

(** [connect(attempts = privateEnv.DB_RETRY_ATTEMPTS || 3)] *)
Definition connect (attempts : option Z) : Outcome unit * list Event :=
  connect_loop (default (or_number (DB_RETRY_ATTEMPTS env) 3) attempts) 0.

End Connect.

(** The calls of [mongoose.connect] in a trace. *)
Definition connections (tr : list Event) : nat :=
  length (List.filter (λ e, bool_decide (e = Connect)) tr).

(** [m] failed calls, each followed by a wait of [delay]. *)
Fixpoint retries (delay : Z) (m : nat) : list Event :=
  match m with
  | O => []
  | S m => Connect :: Sleep delay :: retries delay m
  end.

(** *** Themes, drafts and revisions *)

Record ThemeDocument : Type := {
  theme_name : string;
  theme_path : string;
  isDefault : bool;
  theme_createdAt : Z;
  theme_updatedAt : Z
}.

#[global] Instance ThemeDocument_eq_dec : EqDecision ThemeDocument.
Proof. solve_decision. Defined.

Record DraftDocument : Type := {
  draft_id : string;
  originalDocumentId : string;
  draft_content : string;
  draft_createdAt : Z;
  draft_updatedAt : Z;
  draft_status : string;
  draft_createdBy : string
}.

Record RevisionDocument : Type := {
  revision_id : string;
  documentId : string;
  revision_content : string;
  revision_createdAt : Z;
  revision_createdBy : string
}.

(** The collections of the content database that the methods below
    use. *)
Record Content : Type := mkContent {
  Theme : list ThemeDocument;
  Draft : list DraftDocument;
  Revision : list RevisionDocument
}.

Definition set_themes (f : list ThemeDocument → list ThemeDocument) (c : Content) : Content :=
  mkContent (f (Theme c)) (Draft c) (Revision c).

Definition set_drafts (f : list DraftDocument → list DraftDocument) (c : Content) : Content :=
  mkContent (Theme c) (f (Draft c)) (Revision c).

Definition set_revisions (f : list RevisionDocument → list RevisionDocument) (c : Content)
    : Content :=
  mkContent (Theme c) (Draft c) (f (Revision c)).

(** [modifiedCount] of an [updateOne]: 1 when a document matches and the
    update changes it. *)
Definition modifiedCount {A} `{EqDecision A} (q : A → bool) (f : A → A) (docs : list A) : Z :=
  match findOne q docs with
  | Some d => if decide (f d = d) then 0 else 1
  | None => 0
  end.

Definition set_default (b : bool) (t : ThemeDocument) : ThemeDocument :=
  {| theme_name := theme_name t; theme_path := theme_path t; isDefault := b;
     theme_createdAt := theme_createdAt t; theme_updatedAt := theme_updatedAt t |}.

Definition setDefaultTheme (themeName : string) : M Content unit :=
  try_catch
    (modify (set_themes (map (set_default false)));;
     result ← gets (λ c,
       modifiedCount (λ t, (theme_name t =? themeName)%string) (set_default true) (Theme c));
     modify (set_themes (updateOne (λ t, (theme_name t =? themeName)%string)
                                   (set_default true)));;
     if result =? 0 then
       throw (Error ("Theme with name " +:+ themeName +:+ " not found."))
     else mret tt)
    (λ err, throw (Error ("Error setting default theme: " +:+ message err))).

Definition getAllThemes : M Content (list ThemeDocument) := gets Theme.

(** [id] is the [_id] of the new draft; [createdAt] and [updatedAt]
    default to [Date.now], [status] to 'draft'. *)
Definition createDraft (now : Z) (id : string) (content originalDocumentId userId : string)
    : M Content DraftDocument :=
  let draft := {| draft_id := id; originalDocumentId := originalDocumentId;
                  draft_content := content; draft_createdAt := now;
                  draft_updatedAt := now; draft_status := "draft";
                  draft_createdBy := userId |} in
  modify (set_drafts (λ ds, ds ++ [draft]));;
  mret draft.

Definition draft_by_id (draftId : string) (d : DraftDocument) : bool :=
  (draft_id d =? draftId)%string.

Definition updateDraft (now : Z) (draftId content : string) : M Content DraftDocument :=
  draft ← gets (λ c, findOne (draft_by_id draftId) (Draft c));
  match draft with
  | None => throw (Error "Draft not found")
  | Some draft =>
    let draft := {| draft_id := draft_id draft;
                    originalDocumentId := originalDocumentId draft;
                    draft_content := content;
                    draft_createdAt := draft_createdAt draft;
                    draft_updatedAt := now;
                    draft_status := draft_status draft;
                    draft_createdBy := draft_createdBy draft |} in
    modify (set_drafts (updateOne (draft_by_id draftId) (λ _, draft)));;
    mret draft
  end.


Definition getDraftsByUser (userId : string) : M Content (list DraftDocument) :=
  gets (λ c, List.filter (λ d, (draft_createdBy d =? userId)%string) (Draft c)).

Definition createRevision (now : Z) (id : string) (documentId content userId : string)
    : M Content RevisionDocument :=
  let revision := {| revision_id := id; documentId := documentId;
                     revision_content := content; revision_createdAt := now;
                     revision_createdBy := userId |} in
  modify (set_revisions (λ rs, rs ++ [revision]));;
  mret revision.

End MongoDBAdapter.

(** ** config/permissions.ts: the registered permissions

    The module keeps the set [permissions] of the registered ids.  Its
    log lines, like those of [config/roles.ts] and of the content adapter
    below, are write-only and are left out. *)

Module PermissionRegistry.

(** [registerPermission]; the argument is [None] for a [null] or
    [undefined] one, and an empty [_id] is falsy. *)
Definition registerPermission (newPermission : option Permission.t) : M (gset string) unit :=
  match newPermission with
  | None => mret tt
  | Some newPermission =>
    if (Permission._id newPermission =? "")%string then mret tt
    else
      known ← (gets (λ permissions : gset string,
                       bool_decide (Permission._id newPermission ∈ permissions))
               : M (gset string) bool);
      if (known : bool) then mret tt
      else modify (λ permissions : gset string, {[Permission._id newPermission]} ∪ permissions)
  end.

(** [newPermissions.forEach(registerPermission)] *)
Fixpoint registerPermissions (newPermissions : list (option Permission.t))
    : M (gset string) unit :=
  match newPermissions with
  | [] => mret tt
  | p :: ps => registerPermission p;; registerPermissions ps
  end.

End PermissionRegistry.

(** ** config/roles.ts *)

Module ConfigRoles.

Record RoleEntry : Type := {
  _id : string;
  name : string;
  description : string;
  isAdmin : option bool;
  permissions : list string
}.

(** The array [roles]; [allPermissions] is what [getAllPermissions()]
    returned when the module was loaded. *)
Definition roles (allPermissions : list Permission.t) : list RoleEntry :=
  let allPermissionIds := Permission._id <$> allPermissions in
  [ {| _id := "admin"; name := "Administrator";
       description := "Full access to all system features";
       isAdmin := Some true; permissions := allPermissionIds |};
    {| _id := "developer"; name := "Developer";
       description := "Developer with some access";
       isAdmin := None; permissions := [] |};
    {| _id := "editor"; name := "Editor";
       description := "Can create, read, and update content";
       isAdmin := None; permissions := [] |};
    {| _id := "user"; name := "User";
       description := "Can only read content";
       isAdmin := None; permissions := [] |} ].

Definition getRoleById (id : string) : M (list RoleEntry) (option RoleEntry) :=
  gets (findOne (λ role, (_id role =? id)%string)).

Definition getAllRoles : M (list RoleEntry) (list RoleEntry) := gets (λ roles, roles).

Definition push (permissionId : string) (role : RoleEntry) : RoleEntry :=
  {| _id := _id role; name := name role; description := description role;
     isAdmin := isAdmin role; permissions := permissions role ++ [permissionId] |}.

(** [role.permissions.push(permissionId)] changes the role object that
    [roles] holds. *)
Definition addPermissionToRole (roleId permissionId : string) : M (list RoleEntry) unit :=
  role ← getRoleById roleId;
  match role with
  | Some role =>
    if negb (PermissionCheck.includes (permissions role) permissionId) then
      modify (updateOne (λ r, (_id r =? roleId)%string) (push permissionId))
    else mret tt
  | None => mret tt
  end.

End ConfigRoles.

(** ** src/routes/(app)/collection/+page.server.ts *)

Module CollectionPage.

(** What [load] hands to SvelteKit: the page data, a thrown
    [redirect(status, location)], a thrown [error(status, message)], or any
    other error that escapes. *)
Inductive Response : Type :=
| PageData (user : User.t)
| HttpRedirect (status : Z) (location : string)
| HttpError (status : Z) (message : string)
| Crash (e : JsError).

(** [cookie] is [event.cookies.get(SESSION_COOKIE_NAME)]. *)
Definition load (ObjectId_isValid : string → bool) (cookie : option string)
    : World → Response * World := λ w,
  if negb (truthy cookie) then (HttpRedirect 302 "/login", w)
  else
    match Auth.validateSession ObjectId_isValid (default "" cookie) w with
    | (Thrown e, w') => (Crash e, w')
    | (Returned None, w') => (HttpRedirect 302 "/login", w')
    | (Returned (Some user), w') =>
      if negb (User.role user =? "admin")%string
      then (HttpError 404 "You don't have access to this page", w')
      else (PageData user, w')
    end.

End CollectionPage.

(** ** src/components/PermissionGuard.svelte *)

Module PermissionGuard.

(** [$page.data.user], as far as the component reads it:
    [user?.role?.isAdmin]. *)
Record GuardRole : Type := { isAdmin : option bool }.
Record GuardUser : Type := { role : option GuardRole }.

(** An entry of [$page.data.permissions]. *)
Record PermissionData : Type := {
  hasPermission : option bool;
  isRateLimited : option bool
}.

Inductive Rendered : Type :=
| Slot
| RateLimitReached
| NotPermitted
| ConfigurationMissing.

Definition empty : PermissionData := {| hasPermission := None; isRateLimited := None |}.

(** [x || false] on an optional boolean *)
Definition or_false (x : option bool) : bool := default false x.

Definition render (config : option PermissionConfig.t) (user : option GuardUser)
    (permissions : option (gmap string PermissionData)) : Rendered :=
  let permissions := default ∅ permissions in
  let permissionData :=
    match config with
    | Some config =>
      if negb (PermissionConfig.contextId config =? "")%string
      then default empty (permissions !! PermissionConfig.contextId config)
      else empty
    | None => empty
    end in
  let isAdmin := bool_decide ((user ≫= role) ≫= isAdmin = Some true) in
  let hasPermission := isAdmin || or_false (hasPermission permissionData) in
  let isRateLimited := or_false (isRateLimited permissionData) in
  match config with
  | Some _ =>
    if hasPermission && negb isRateLimited then Slot
    else if isRateLimited then RateLimitReached
    else NotPermitted
  | None => ConfigurationMissing
  end.

End PermissionGuard.

(** ** Notions of the specification *)

(** The identity triple (context, action, contextType) of a permission
    equals that of the query. *)
Definition same_identity (config : PermissionConfig.t) (p : Permission.t) : Prop :=
  Permission._id p = PermissionConfig.contextId config
  ∧ Permission.action p = PermissionConfig.action config
  ∧ Permission.contextType p = PermissionConfig.contextType config.

(** The match rule: same identifier and action, and the contextType of
    the query or the universal "system" category. *)
Definition matches (config : PermissionConfig.t) (p : Permission.t) : Prop :=
  Permission._id p = PermissionConfig.contextId config
  ∧ Permission.action p = PermissionConfig.action config
  ∧ (Permission.contextType p = PermissionConfig.contextType config
     ∨ Permission.contextType p = "system").

(** What a read of the role's permissions gives when nothing is cached:
    the resolution against the registry as it is now. *)
Definition resolve_fresh (permissionStore : list Permission.t) (role : string) (w : World)
    : Outcome (list Permission.t) :=
  fst (PermissionCheck.getCachedRolePermissions (Some mongoAdapter) permissionStore role
         (set_cache (λ _, ∅) w)).

(** No entry of the cache is stale: each one is what a resolution
    against the registry, as it is now, returns. *)
Definition cache_fresh (permissionStore : list Permission.t) (w : World) : Prop :=
  ∀ (role : string) (cached : list Permission.t),
    rolePermissionCache w !! role = Some cached →
    resolve_fresh permissionStore role w = Returned cached.

(** A computation that leaves [rolePermissionCache] as it found it. *)
Definition keeps_cache {A} (m : M World A) : Prop :=
  ∀ w, rolePermissionCache (snd (m w)) = rolePermissionCache w.

(** The capabilities a registry call asks of the acting user, and the
    acting user. *)
Definition required_actions (c : RegistryCall) : list string :=
  match c with
  | CreateRole _ _ | UpdateRole _ _ _ | DeleteRole _ _ => ["manage_roles"]
  | CreatePermission _ _ | UpdatePermission _ _ _ | DeletePermission _ _ =>
    ["manage_permissions"]
  | AssignPermissionToRole _ _ _ | RemovePermissionFromRole _ _ _ =>
    ["manage_roles"; "manage_permissions"]
  end.

Definition acting_user (c : RegistryCall) : string :=
  match c with
  | CreateRole _ u | UpdateRole _ _ u | DeleteRole _ u
  | CreatePermission _ u | UpdatePermission _ _ u | DeletePermission _ u
  | AssignPermissionToRole _ _ u | RemovePermissionFromRole _ _ u => u
  end.

(** The ids that [registerPermissions] accepts: those of the permissions
    that are present and have a non-empty [_id]. *)
Definition accepted_ids (newPermissions : list (option Permission.t)) : list string :=
  omap (λ p : option Permission.t,
          p ≫= λ p, if (Permission._id p =? "")%string then None else Some (Permission._id p))
       newPermissions.

(** A PHC string of Argon2, as [argon2.hash] returns them. *)
Definition argon2_encoded (s : string) : bool := String.prefix "$argon2" s.

(** ** A small installation, for the examples *)

Module Scenario.

Definition manage_users : Permission.t :=
  Permission.mk "manage_users" "Manage users" "manage" "system" "Manage the users".

Definition edit_posts : Permission.t :=
  Permission.mk "posts" "Edit posts" "update" "collection" "Edit the posts".

Definition admin_role : Role.t := Role.mk "r_admin" "admin" "Administrator" ["manage_users"; "posts"].
Definition editor_role : Role.t := Role.mk "r_editor" "editor" "Content editor" ["posts"].

Definition root : User.t :=
  User.mk (Some "u_root") "root@x.com" (Some "$argon2id$v=19$m=4096,t=2,p=2$c2FsdA$aGFzaA")
          "admin" ["r_admin"] [].
Definition alice : User.t :=
  User.mk (Some "u_alice") "a@x.com" (Some "$argon2id$v=19$m=4096,t=2,p=2$c2FsdA$aGFzaB")
          "editor" ["r_editor"] [].

(** A session of alice that expired at time 5. *)
Definition stale_session : Session.t := Session.mk "s1" "u_alice" 5.

Definition world : World :=
  mkWorld [root; alice] [stale_session] [] [admin_role; editor_role]
          [manage_users; edit_posts] ∅ [].

Definition store : list Permission.t := [manage_users; edit_posts].

(** "May this user update the posts collection?", asked of the editors. *)
Definition update_posts : PermissionConfig.t :=
  PermissionConfig.mk "cfg1" "Update posts" "posts" "update" "collection" (Some "editor") None.

(** "May this user manage the users?", asked in the user context. *)
Definition manage_users_query : PermissionConfig.t :=
  PermissionConfig.mk "cfg2" "Manage users" "manage_users" "manage" "user" (Some "editor") None.

(** The same query with no required role. *)
Definition manage_users_open : PermissionConfig.t :=
  PermissionConfig.mk "cfg3" "Manage users" "manage_users" "manage" "user" None None.

(** An adapter whose backend is down. *)
Definition broken_adapter : authDBInterface :=
  {| getRoleByName := λ _, throw (Error "connection lost") |}.

(** A stand-in for [argon2.hash] with a fixed salt. *)
Definition toy_hash (password : string) : string :=
  "$argon2id$v=19$m=4096,t=2,p=2$c2FsdA$" +:+ password.

Definition accept_all (s : string) : bool := true.

(** The backend refuses every connection. *)
Definition always_down (k : nat) : option JsError := Some (Error "ECONNREFUSED").

(** The backend accepts the third connection. *)
Definition up_at_third (k : nat) : option JsError :=
  if (k <? 2)%nat then Some (Error "ECONNREFUSED") else None.

Definition env3 : MongoDBAdapter.privateEnv :=
  {| MongoDBAdapter.DB_RETRY_ATTEMPTS := Some 3; MongoDBAdapter.DB_RETRY_DELAY := None |}.

(** Three attempts against the backend that refuses every connection. *)
Definition refused : Outcome unit * list MongoDBAdapter.Event :=
  MongoDBAdapter.connect env3 always_down (Some 3).





(** A token of alice that expires at time 10, as each adapter stores
    it. *)
Definition short_token : Token.t := Token.mk "u_alice" "t1" (Some "a@x.com") None 10.
Definition short_reset_token : Token.t := Token.mk "u_alice" "t1" None (Some "reset") 10.

Definition world_token : World := set_tokens (λ _, [short_token]) world.
Definition world_reset_token : World := set_tokens (λ _, [short_reset_token]) world.

(** A reset token for alice with [ttl = 0], issued at time 100. *)
Definition world_issued : World :=
  snd (MongoDBAuthAdapter.createToken 100 "5f2c" "u_alice" "a@x.com" 0 world).

(** bob, a plain user with the role of the users. *)
Definition bob : User.t :=
  User.mk (Some "u_bob") "b@x.com" None "user" [] ["manage_users"].

(** A session of alice that expires at time 50 and one of bob. *)
Definition live_session : Session.t := Session.mk "s2" "u_alice" 50.
Definition bob_session : Session.t := Session.mk "s3" "u_bob" 50.

Definition busy_world : World :=
  mkWorld [root; alice; bob] [stale_session; live_session; bob_session] []
          [admin_role; editor_role] [manage_users; edit_posts] ∅ [].

(** A session of root. *)
Definition root_session : Session.t := Session.mk "s4" "u_root" 50.

Definition root_world : World :=
  mkWorld [root; alice] [root_session; stale_session] [] [admin_role; editor_role]
          [manage_users; edit_posts] ∅ [].

Definition light : MongoDBAdapter.ThemeDocument :=
  {| MongoDBAdapter.theme_name := "light"; MongoDBAdapter.theme_path := "/themes/light.css";
     MongoDBAdapter.isDefault := true; MongoDBAdapter.theme_createdAt := 1;
     MongoDBAdapter.theme_updatedAt := 1 |}.

Definition dark : MongoDBAdapter.ThemeDocument :=
  {| MongoDBAdapter.theme_name := "dark"; MongoDBAdapter.theme_path := "/themes/dark.css";
     MongoDBAdapter.isDefault := false; MongoDBAdapter.theme_createdAt := 2;
     MongoDBAdapter.theme_updatedAt := 2 |}.

Definition essay : MongoDBAdapter.DraftDocument :=
  {| MongoDBAdapter.draft_id := "d1"; MongoDBAdapter.originalDocumentId := "doc1";
     MongoDBAdapter.draft_content := "Hello"; MongoDBAdapter.draft_createdAt := 1;
     MongoDBAdapter.draft_updatedAt := 2; MongoDBAdapter.draft_status := "draft";
     MongoDBAdapter.draft_createdBy := "u_alice" |}.

Definition content : MongoDBAdapter.Content :=
  MongoDBAdapter.mkContent [light; dark] [essay] [].

(** alice logs in at time 100 for 3600. *)
Definition world_session : World :=
  snd (MongoDBAuthAdapter.createSession 100 "s9" "u_alice" 3600 world).

(** alice is sent a token at time 100, good for 3600. *)
Definition world_invited : World :=
  snd (MongoDBAuthAdapter.createToken 100 "7a1e" "u_alice" "a@x.com" 3600 world).

(** The page data of an administrator whose entry for "posts" is rate
    limited. *)
Definition guard_admin : PermissionGuard.GuardUser :=
  {| PermissionGuard.role := Some {| PermissionGuard.isAdmin := Some true |} |}.

Definition page_permissions : gmap string PermissionGuard.PermissionData :=
  {[ "posts" := {| PermissionGuard.hasPermission := Some true;
                   PermissionGuard.isRateLimited := Some true |} ]}.

End Scenario.

(** * Properties *)

(** ** Generic facts *)

Lemma set_tokens_fix (f : list Token.t → list Token.t) (w : World) :
  f (TokenModel w) = TokenModel w → set_tokens f w = w.
Proof. destruct w. unfold set_tokens. simpl. by intros ->. Qed.

Lemma deleteOne_no_match {A} (q : A → bool) (docs : list A) :
  findOne q docs = None → deleteOne q docs = docs.
Proof.
  unfold findOne. induction docs as [|d ds IH]; simpl; [done|].
  destruct (q d); [done|]. intros H. by rewrite IH.
Qed.

Lemma deleteOne_length {A} (q : A → bool) (docs : list A) (d : A) :
  findOne q docs = Some d → S (length (deleteOne q docs)) = length docs.
Proof.
  unfold findOne. induction docs as [|x xs IH]; simpl; [done|].
  destruct (q x); [done|]. intros H. simpl. by rewrite IH.
Qed.

Lemma findOne_Some {A} (q : A → bool) (docs : list A) (d : A) :
  findOne q docs = Some d → d ∈ docs ∧ q d = true.
Proof.
  intros H. apply List.find_some in H as [Hin Hq]. split; [|done].
  by apply list_elem_of_In.
Qed.

Lemma existsb_elem_of {A} (q : A → bool) (l : list A) :
  existsb q l = true ↔ ∃ x, x ∈ l ∧ q x = true.
Proof.
  rewrite List.existsb_exists. split; intros (x & Hx & Hq); exists x; split; try done;
    by apply list_elem_of_In.
Qed.

Lemma forallb_elem_of {A} (q : A → bool) (l : list A) :
  forallb q l = true ↔ ∀ x, x ∈ l → q x = true.
Proof.
  rewrite List.forallb_forall. split; intros H x Hx; apply H; by apply list_elem_of_In.
Qed.

Lemma string_eqb_neq (a b : string) : (a =? b)%string = false ↔ a ≠ b.
Proof. apply String.eqb_neq. Qed.

(** ** The permission resolver *)

Section ResolverFacts.
Import PermissionCheck.

Lemma satisfies_matches (config : PermissionConfig.t) (p : Permission.t) :
  satisfies config p = true ↔ matches config p.
Proof.
  unfold satisfies, matches, PermissionType.SYSTEM.
  rewrite !andb_true_iff, orb_true_iff, !String.eqb_eq. tauto.
Qed.

Lemma differs_identity (config : PermissionConfig.t) (p : Permission.t) :
  differs config p = true ↔ ¬ same_identity config p.
Proof.
  unfold differs, same_identity.
  rewrite !orb_true_iff, !negb_true_iff, !string_eqb_neq.
  split.
  - intros [[H|H]|H] (H1 & H2 & H3); contradiction.
  - intros H.
    destruct (decide (Permission._id p = PermissionConfig.contextId config)); [|tauto].
    destruct (decide (Permission.action p = PermissionConfig.action config)); [|tauto].
    right. intros H3. apply H. done.
Qed.

(** The guard fires exactly when the user's role is the query's
    [requiredRole], is not "admin", and no permission has the identity of
    the query. *)
Lemma checkForSelfLockout_true (user : User.t) (config : PermissionConfig.t)
    (perms : list Permission.t) :
  checkForSelfLockout user config perms = true ↔
    PermissionConfig.requiredRole config = Some (User.role user)
    ∧ User.role user ≠ "admin"
    ∧ ∀ p, p ∈ perms → ¬ same_identity config p.
Proof.
  unfold checkForSelfLockout.
  destruct (PermissionConfig.requiredRole config) as [r|];
    [|split; [done|intros (Heq & _); done]].
  destruct (String.eqb_spec r "admin") as [Hr|Hr]; simpl.
  - split; [done|]. intros (Heq & Hne & _). congruence.
  - destruct (String.eqb_spec (User.role user) r) as [Hu|Hu].
    + rewrite forallb_elem_of. setoid_rewrite differs_identity.
      split; [intros H; repeat split; congruence || done | tauto].
    + split; [done|]. intros (Heq & _). congruence.
Qed.

(** A cached role is answered from the cache, whatever the adapter and
    the registry are. *)
Lemma getCachedRolePermissions_hit (authAdapter : option authDBInterface)
    (store : list Permission.t) (role : string) (w : World) (cached : list Permission.t) :
  rolePermissionCache w !! role = Some cached →
  getCachedRolePermissions authAdapter store role w = (Returned cached, w).
Proof.
  intros H. unfold getCachedRolePermissions, mbind, M_bind, gets. by rewrite H.
Qed.

(** The run of [checkUserPermission] for a user who is not "admin", once
    the role's permissions are resolved. *)
Lemma checkUserPermission_resolved (adapter : authDBInterface) (store : list Permission.t)
    (user : User.t) (config : PermissionConfig.t) (w w' : World) (perms : list Permission.t) :
  User.role user ≠ "admin" →
  getCachedRolePermissions (Some adapter) store (User.role user) w = (Returned perms, w') →
  checkUserPermission (Some adapter) store user config w =
    if checkForSelfLockout user config perms then
      (Returned deny,
       snd (logger error ("User " +:+ User.email user
                          +:+ " attempted a self-lockout by role change") w'))
    else if existsb (satisfies config) perms then
      (Returned grant, w')
    else
      (Returned deny,
       snd (logger warn ("User " +:+ User.email user +:+ " lacks required permission for "
                         +:+ PermissionConfig.contextId config) w')).
Proof.
  intros Hrole Hres. unfold checkUserPermission, try_catch.
  apply string_eqb_neq in Hrole. rewrite Hrole.
  unfold mbind at 1. unfold M_bind at 1. rewrite Hres.
  destruct (checkForSelfLockout user config perms); [done|].
  destruct (existsb (satisfies config) perms); done.
Qed.

(** If the resolution throws, [checkUserPermission] catches the error. *)
Lemma checkUserPermission_caught (adapter : authDBInterface) (store : list Permission.t)
    (user : User.t) (config : PermissionConfig.t) (w w' : World) (e : JsError) :
  User.role user ≠ "admin" →
  getCachedRolePermissions (Some adapter) store (User.role user) w = (Thrown e, w') →
  checkUserPermission (Some adapter) store user config w =
    (Returned deny,
     snd (logger error ("Error checking user permission: " +:+ message e) w')).
Proof.
  intros Hrole Hres. unfold checkUserPermission, try_catch.
  apply string_eqb_neq in Hrole. rewrite Hrole.
  unfold mbind at 1. unfold M_bind at 1. by rewrite Hres.
Qed.

End ResolverFacts.

(** *** C2: the reserved role bypasses every check *)

(** C2.  A user whose role is "admin" is granted every query.
    [checkUserPermission] of [permissionCheck.ts] answers
    [{hasPermission: true, isRateLimited: false}] whatever the adapter (also
    when it is missing or failing), the permission store, the cache and
    the query are, and leaves the state as it was: nothing is read, cached
    or logged.  [checkUserPermission] of the MongoDB adapter answers [true]
    for every action as soon as one populated role of the user is named
    "admin" (in any letter case), whatever the permissions are. *)
Theorem admin_bypass :
  (∀ (authAdapter : option authDBInterface) (permissionStore : list Permission.t)
     (user : User.t) (config : PermissionConfig.t) (w : World),
     User.role user = "admin" →
     PermissionCheck.checkUserPermission authAdapter permissionStore user config w
     = (Returned {| PermissionCheck.hasPermission := true;
                    PermissionCheck.isRateLimited := false |}, w))
  ∧
  (∀ (user_id requiredAction : string) (w : World) (user : User.t) (role : Role.t),
     findOne (MongoDBAuthAdapter.by_id user_id) (UserModel w) = Some user →
     role ∈ MongoDBAuthAdapter.populate Role._id (RoleModel w) (User.roles user) →
     toLowerCase (Role.name role) = "admin" →
     MongoDBAuthAdapter.checkUserPermission user_id requiredAction w = (Returned true, w)).
Proof.
  split.
  - intros authAdapter store user config w Hrole.
    unfold PermissionCheck.checkUserPermission, try_catch. by rewrite Hrole.
  - intros user_id action w user role Huser Hin Hname.
    unfold MongoDBAuthAdapter.checkUserPermission, gets. rewrite Huser.
    assert (existsb (λ role, (toLowerCase (Role.name role) =? "admin")%string)
              (MongoDBAuthAdapter.populate Role._id (RoleModel w) (User.roles user)) = true)
      as ->; [|done].
    apply existsb_elem_of. exists role. split; [done|]. by apply String.eqb_eq.
Qed.

Lemma admin_bypass_witness :
  PermissionCheck.checkUserPermission None placeholderStore Scenario.root
    Scenario.manage_users_query Scenario.world
  = (Returned PermissionCheck.grant, Scenario.world)
  ∧ MongoDBAuthAdapter.checkUserPermission "u_root" "manage_roles" Scenario.world
    = (Returned true, Scenario.world).
Proof.
  split.
  - apply (proj1 admin_bypass). reflexivity.
  - apply (proj2 admin_bypass "u_root" "manage_roles" Scenario.world
             Scenario.root Scenario.admin_role).
    + reflexivity.
    + vm_compute. apply list_elem_of_here.
    + reflexivity.
Defined.

(** *** C3: the self-lockout guard *)

(** C3.  For a user who is not "admin": when the user's role is the
    [requiredRole] of the query and no permission of the resolved set has
    the identity (contextId, action, contextType) of the query,
    [checkUserPermission] answers [hasPermission = false], and what it adds
    to the state left by the resolution is the one error line of the
    blocked self-lockout; the [some] that grants or denies is not reached
    (no permission of the set is looked at for a match, also none that the
    "system" wildcard would accept). *)
Theorem self_lockout_denied (adapter : authDBInterface) (permissionStore : list Permission.t)
    (user : User.t) (config : PermissionConfig.t) (w w' : World)
    (userPermissions : list Permission.t) :
  User.role user ≠ "admin" →
  PermissionConfig.requiredRole config = Some (User.role user) →
  PermissionCheck.getCachedRolePermissions (Some adapter) permissionStore (User.role user) w
  = (Returned userPermissions, w') →
  (∀ p, p ∈ userPermissions → ¬ same_identity config p) →
  PermissionCheck.checkUserPermission (Some adapter) permissionStore user config w
  = (Returned {| PermissionCheck.hasPermission := false;
                 PermissionCheck.isRateLimited := false |},
     set_logs (λ ls, ls ++ [{| level := error;
                               text := "User " +:+ User.email user
                                       +:+ " attempted a self-lockout by role change" |}]) w').
Proof.
  intros Hrole Hreq Hres Hnone.
  rewrite (checkUserPermission_resolved _ _ _ _ _ _ _ Hrole Hres).
  assert (PermissionCheck.checkForSelfLockout user config userPermissions = true) as ->.
  { apply checkForSelfLockout_true. done. }
  done.
Qed.

(** The editor alice asks to manage users in the user context; the
    editors hold no permission with that identity. *)
Lemma self_lockout_denied_witness :
  PermissionCheck.checkUserPermission (Some mongoAdapter) Scenario.store Scenario.alice
    Scenario.manage_users_query Scenario.world
  = (Returned PermissionCheck.deny,
     set_logs (λ ls, ls ++ [{| level := error;
                               text := "User a@x.com attempted a self-lockout by role change" |}])
       (set_cache (λ c, <["editor" := [Scenario.edit_posts]]> c) Scenario.world)).
Proof.
  apply (self_lockout_denied mongoAdapter Scenario.store Scenario.alice
           Scenario.manage_users_query Scenario.world
           (set_cache (λ c, <["editor" := [Scenario.edit_posts]]> c) Scenario.world)
           [Scenario.edit_posts]).
  - discriminate.
  - reflexivity.
  - reflexivity.
  - intros p Hp. apply list_elem_of_singleton in Hp as ->.
    intros (H & _). discriminate H.
Defined.

(** The guard comes first: a set that holds a "system" permission with
    the identifier and action of the query would satisfy the match rule,
    and is denied all the same when the query names the user's role. *)
Lemma guard_precedes_wildcard :
  existsb (PermissionCheck.satisfies Scenario.manage_users_query) [Scenario.manage_users] = true
  ∧ PermissionCheck.checkUserPermission (Some mongoAdapter) Scenario.store Scenario.alice
      Scenario.manage_users_query
      (set_cache (λ _, {["editor" := [Scenario.manage_users]]}) Scenario.world)
    = (Returned PermissionCheck.deny,
       set_logs (λ ls, ls ++ [{| level := error;
                                 text := "User a@x.com attempted a self-lockout by role change" |}])
         (set_cache (λ _, {["editor" := [Scenario.manage_users]]}) Scenario.world)).
Proof. split; reflexivity. Qed.

(** *** C6: the match rule *)

(** C6.  A permission satisfies a query exactly when its identifier is
    the query's contextId, its action is the query's action, and its
    contextType is the query's contextType or "system".  So a "system"
    permission with the identifier and the action of the query satisfies
    it whatever the contextType of the query is, and a permission with
    another identifier or another action satisfies no query.  For a user
    who is not "admin", once the permission set is resolved and the
    self-lockout guard does not fire, [hasPermission] is [true] exactly
    when some permission of the set satisfies the query. *)
Theorem match_rule :
  (∀ (config : PermissionConfig.t) (p : Permission.t),
     PermissionCheck.satisfies config p = true ↔
       Permission._id p = PermissionConfig.contextId config
       ∧ Permission.action p = PermissionConfig.action config
       ∧ (Permission.contextType p = PermissionConfig.contextType config
          ∨ Permission.contextType p = PermissionType.SYSTEM))
  ∧ (∀ (config : PermissionConfig.t) (p : Permission.t),
       Permission._id p = PermissionConfig.contextId config →
       Permission.action p = PermissionConfig.action config →
       Permission.contextType p = "system" →
       PermissionCheck.satisfies config p = true)
  ∧ (∀ (config : PermissionConfig.t) (p : Permission.t),
       Permission._id p ≠ PermissionConfig.contextId config
       ∨ Permission.action p ≠ PermissionConfig.action config →
       PermissionCheck.satisfies config p = false)
  ∧ (∀ (adapter : authDBInterface) (permissionStore : list Permission.t) (user : User.t)
       (config : PermissionConfig.t) (w w' : World) (userPermissions : list Permission.t),
       User.role user ≠ "admin" →
       PermissionCheck.getCachedRolePermissions (Some adapter) permissionStore
         (User.role user) w = (Returned userPermissions, w') →
       PermissionCheck.checkForSelfLockout user config userPermissions = false →
       ∃ (decision : PermissionCheck.Decision) (w'' : World),
         PermissionCheck.checkUserPermission (Some adapter) permissionStore user config w
         = (Returned decision, w'')
         ∧ PermissionCheck.isRateLimited decision = false
         ∧ (PermissionCheck.hasPermission decision = true ↔
              ∃ p, p ∈ userPermissions ∧ matches config p)).
Proof.
  split; [|split; [|split]].
  - intros config p. apply satisfies_matches.
  - intros config p Hid Hact Hsys. apply satisfies_matches. unfold matches. tauto.
  - intros config p H. apply not_true_is_false. rewrite satisfies_matches.
    unfold matches. tauto.
  - intros adapter store user config w w' perms Hrole Hres Hguard.
    rewrite (checkUserPermission_resolved _ _ _ _ _ _ _ Hrole Hres), Hguard.
    destruct (existsb (PermissionCheck.satisfies config) perms) eqn:Hex.
    + eexists _, _. split; [done|]. split; [done|]. split; [|done]. intros _.
      apply existsb_elem_of in Hex as (p & Hp & Hs). exists p. split; [done|].
      by apply satisfies_matches.
    + eexists _, _. split; [done|]. split; [done|]. simpl. split; [done|].
      intros (p & Hp & Hm). apply satisfies_matches in Hm.
      assert (existsb (PermissionCheck.satisfies config) perms = true); [|congruence].
      apply existsb_elem_of. eauto.
Qed.

(** A "system" permission answers a query of the "user" context; the
    editor alice may update the posts collection. *)
Lemma match_rule_witness :
  PermissionCheck.satisfies Scenario.manage_users_open Scenario.manage_users = true
  ∧ PermissionCheck.satisfies Scenario.update_posts Scenario.manage_users = false
  ∧ ∃ (decision : PermissionCheck.Decision) (w'' : World),
      PermissionCheck.checkUserPermission (Some mongoAdapter) Scenario.store Scenario.alice
        Scenario.update_posts Scenario.world = (Returned decision, w'')
      ∧ PermissionCheck.isRateLimited decision = false
      ∧ (PermissionCheck.hasPermission decision = true ↔
           ∃ p, p ∈ [Scenario.edit_posts] ∧ matches Scenario.update_posts p).
Proof.
  split; [|split].
  - apply (proj1 (proj2 match_rule)); reflexivity.
  - apply (proj1 (proj2 (proj2 match_rule))). left. discriminate.
  - apply (proj2 (proj2 (proj2 match_rule)) mongoAdapter Scenario.store Scenario.alice
             Scenario.update_posts Scenario.world
             (set_cache (λ c, <["editor" := [Scenario.edit_posts]]> c) Scenario.world)).
    + discriminate.
    + reflexivity.
    + reflexivity.
Defined.

(** *** C7: a failed resolution *)

(** [checkUserPermission] returns a decision from every state: no error
    leaves it. *)
Lemma checkUserPermission_returns (authAdapter : option authDBInterface)
    (permissionStore : list Permission.t) (user : User.t) (config : PermissionConfig.t)
    (w : World) :
  ∃ (decision : PermissionCheck.Decision) (w' : World),
    PermissionCheck.checkUserPermission authAdapter permissionStore user config w
    = (Returned decision, w').
Proof.
  unfold PermissionCheck.checkUserPermission, try_catch.
  destruct (User.role user =? "admin")%string; [by eexists _, _|].
  destruct authAdapter as [adapter|]; [|by eexists _, _].
  unfold mbind at 1. unfold M_bind at 1.
  destruct (PermissionCheck.getCachedRolePermissions _ _ _ w) as [[perms|e] w1];
    [|by eexists _, _].
  destruct (PermissionCheck.checkForSelfLockout user config perms); [by eexists _, _|].
  destruct (existsb _ perms); by eexists _, _.
Qed.

(** C7, as the code has it.  When the resolution of the role's
    permissions throws, [getCachedRolePermissions] logs and rethrows, and
    [checkUserPermission] catches the error: it logs "Error checking user
    permission: ..." and returns the denial
    [{hasPermission: false, isRateLimited: false}].  The failure is never a
    grant, and it is not raised to the caller. *)
Theorem resolution_failure_denies (adapter : authDBInterface)
    (permissionStore : list Permission.t) (user : User.t) (config : PermissionConfig.t)
    (w w' : World) (e : JsError) :
  User.role user ≠ "admin" →
  PermissionCheck.getCachedRolePermissions (Some adapter) permissionStore (User.role user) w
  = (Thrown e, w') →
  PermissionCheck.checkUserPermission (Some adapter) permissionStore user config w
  = (Returned {| PermissionCheck.hasPermission := false;
                 PermissionCheck.isRateLimited := false |},
     set_logs (λ ls, ls ++ [{| level := error;
                               text := "Error checking user permission: " +:+ message e |}]) w').
Proof. intros Hrole Hres. by rewrite (checkUserPermission_caught _ _ _ _ _ _ _ Hrole Hres). Qed.

Lemma resolution_failure_denies_witness :
  PermissionCheck.checkUserPermission (Some Scenario.broken_adapter) Scenario.store
    Scenario.alice Scenario.update_posts Scenario.world
  = (Returned PermissionCheck.deny,
     set_logs (λ ls, ls ++ [{| level := error;
                               text := "Error checking user permission: connection lost" |}])
       (set_logs (λ ls, ls ++ [{| level := error;
                                  text := "Error fetching role permissions: connection lost" |}])
          Scenario.world)).
Proof.
  apply (resolution_failure_denies Scenario.broken_adapter Scenario.store Scenario.alice
           Scenario.update_posts Scenario.world _ (Error "connection lost")).
  - discriminate.
  - reflexivity.
Defined.

(** The claim as the specification has it fails: the registry is down,
    the resolution throws, and the caller of [checkUserPermission] gets a
    plain denial. *)
Lemma resolution_failure_not_raised :
  fst (PermissionCheck.getCachedRolePermissions (Some Scenario.broken_adapter) Scenario.store
         "editor" Scenario.world) = Thrown (Error "connection lost")
  ∧ fst (PermissionCheck.checkUserPermission (Some Scenario.broken_adapter) Scenario.store
           Scenario.alice Scenario.update_posts Scenario.world)
    = Returned {| PermissionCheck.hasPermission := false;
                  PermissionCheck.isRateLimited := false |}
  ∧ ¬ ∃ e, fst (PermissionCheck.checkUserPermission (Some Scenario.broken_adapter)
                  Scenario.store Scenario.alice Scenario.update_posts Scenario.world)
           = Thrown e.
Proof.
  split; [reflexivity|]. split; [reflexivity|]. intros [e He]. discriminate He.
Qed.

(** *** C5: the cache and the registry *)

(** With the body of [getAllPermissions] as shipped, a resolution that is
    not answered from the cache gives the empty list, whatever the role
    holds. *)
Remark placeholder_resolves_nothing (authAdapter : option authDBInterface) (role : string)
    (w w' : World) (perms : list Permission.t) :
  rolePermissionCache w !! role = None →
  PermissionCheck.getCachedRolePermissions authAdapter placeholderStore role w
  = (Returned perms, w') →
  perms = [].
Proof.
  intros Hmiss. unfold PermissionCheck.getCachedRolePermissions, mbind, M_bind, gets.
  rewrite Hmiss. destruct authAdapter as [adapter|]; [|done].
  unfold try_catch. destruct (getRoleByName adapter role w) as [[[r|]|e] w1]; simpl.
  - by intros [= <- _].
  - by intros [= <- _].
  - done.
Qed.

Lemma keeps_ret {A} (a : A) : keeps_cache (mret a).
Proof. by intros w. Qed.

Lemma keeps_throw {A} (e : JsError) : keeps_cache (throw e : M World A).
Proof. by intros w. Qed.

Lemma keeps_gets {A} (f : World → A) : keeps_cache (gets f).
Proof. by intros w. Qed.

Lemma keeps_set_roles (f : list Role.t → list Role.t) : keeps_cache (modify (set_roles f)).
Proof. by intros w. Qed.

Lemma keeps_set_permissions (f : list Permission.t → list Permission.t) :
  keeps_cache (modify (set_permissions f)).
Proof. by intros w. Qed.

Lemma keeps_bind {A B} (m : M World A) (f : A → M World B) :
  keeps_cache m → (∀ a, keeps_cache (f a)) → keeps_cache (m ≫= f).
Proof.
  intros Hm Hf w. unfold mbind, M_bind. specialize (Hm w).
  destruct (m w) as [[a|e] w1]; simpl in *; [|done].
  by rewrite Hf.
Qed.

Create HintDb cache discriminated.
#[local] Hint Resolve keeps_ret keeps_throw keeps_gets keeps_set_roles
  keeps_set_permissions : cache.

Ltac keep_cache :=
  repeat first
    [ apply keeps_bind; [|intros ?]
    | progress auto with cache
    | match goal with
      | |- keeps_cache (if ?b then _ else _) => destruct b
      | |- keeps_cache (match ?x with Some _ => _ | None => _ end) => destruct x
      end ].

Lemma checkUserPermission_keeps (user_id requiredAction : string) :
  keeps_cache (MongoDBAuthAdapter.checkUserPermission user_id requiredAction).
Proof. unfold MongoDBAuthAdapter.checkUserPermission. keep_cache. Qed.

Lemma may_manage_both_keeps (currentUserId : string) :
  keeps_cache (MongoDBAuthAdapter.may_manage_both currentUserId).
Proof.
  unfold MongoDBAuthAdapter.may_manage_both.
  apply keeps_bind; [apply checkUserPermission_keeps|]. intros b.
  destruct b; simpl; [apply checkUserPermission_keeps|apply keeps_ret].
Qed.

#[local] Hint Resolve checkUserPermission_keeps may_manage_both_keeps : cache.

Lemma perform_keeps (c : RegistryCall) : keeps_cache (perform c).
Proof.
  destruct c; simpl;
    unfold MongoDBAuthAdapter.createRole, MongoDBAuthAdapter.updateRole,
      MongoDBAuthAdapter.deleteRole, MongoDBAuthAdapter.createPermission,
      MongoDBAuthAdapter.updatePermission, MongoDBAuthAdapter.deletePermission,
      MongoDBAuthAdapter.assignPermissionToRole,
      MongoDBAuthAdapter.removePermissionFromRole;
    keep_cache.
Qed.

(** No call of the registry touches [rolePermissionCache]: after each of
    the eight mutating calls, whether it returns or throws, the cache is
    what it was before.  So a role that was cached before the call is
    still answered from its cached list after it, whatever the adapter and
    the store are. *)
Lemma registry_calls_keep_cache (c : RegistryCall) (w : World) :
  rolePermissionCache (snd (perform c w)) = rolePermissionCache w
  ∧ ∀ (authAdapter : option authDBInterface) (permissionStore : list Permission.t)
      (role : string) (cached : list Permission.t),
      rolePermissionCache w !! role = Some cached →
      PermissionCheck.getCachedRolePermissions authAdapter permissionStore role
        (snd (perform c w))
      = (Returned cached, snd (perform c w)).
Proof.
  split; [apply perform_keeps|].
  intros authAdapter store role cached Hc.
  apply getCachedRolePermissions_hit. by rewrite perform_keeps.
Qed.

(** Against the permissions that [getAllPermissions] of
    config/permissions.ts returns, the resolution of a role gives the
    empty list: for every role, found or not, and every registry. *)
Lemma resolve_fresh_placeholder (role : string) (w : World) :
  resolve_fresh placeholderStore role w = Returned [].
Proof.
  unfold resolve_fresh, PermissionCheck.getCachedRolePermissions, mbind, M_bind, gets.
  simpl. rewrite lookup_empty. unfold try_catch. simpl.
  by destruct (findOne _ (RoleModel w)).
Qed.

(** So the cache is fresh exactly when it holds empty lists only. *)
Lemma cache_fresh_placeholder (w : World) :
  cache_fresh placeholderStore w ↔
  ∀ (role : string) (cached : list Permission.t),
    rolePermissionCache w !! role = Some cached → cached = [].
Proof.
  unfold cache_fresh. split; intros H role cached Hc.
  - specialize (H role cached Hc). rewrite resolve_fresh_placeholder in H. congruence.
  - rewrite resolve_fresh_placeholder. by rewrite (H role cached Hc).
Qed.

(** The cache starts empty ([new Map()]), and an empty cache is fresh. *)
Lemma cache_fresh_empty (permissionStore : list Permission.t) (w : World) :
  rolePermissionCache w = ∅ → cache_fresh permissionStore w.
Proof. intros H role cached. by rewrite H, lookup_empty. Qed.

(** A read through the cache, the only place that writes to it, returns
    the empty list and keeps the cache fresh. *)
Lemma getCachedRolePermissions_placeholder (role : string) (w : World) :
  cache_fresh placeholderStore w →
  fst (PermissionCheck.getCachedRolePermissions (Some mongoAdapter) placeholderStore role w)
  = Returned []
  ∧ cache_fresh placeholderStore
      (snd (PermissionCheck.getCachedRolePermissions (Some mongoAdapter) placeholderStore
              role w)).
Proof.
  rewrite !cache_fresh_placeholder. intros Hfresh.
  unfold PermissionCheck.getCachedRolePermissions, mbind, M_bind, gets. simpl.
  destruct (rolePermissionCache w !! role) as [cached|] eqn:Hc; simpl.
  - by rewrite (Hfresh role cached Hc).
  - unfold try_catch. simpl.
    destruct (findOne _ (RoleModel w)); simpl; (split; [done|]); [|done].
    intros role' cached' [[_ <-]|[_ H]]%lookup_insert_Some; [done|by eapply Hfresh].
Qed.

(** [checkUserPermission] writes to the cache through
    [getCachedRolePermissions] only: it keeps the cache fresh too. *)
Lemma checkUserPermission_placeholder (user : User.t) (config : PermissionConfig.t)
    (w : World) :
  cache_fresh placeholderStore w →
  cache_fresh placeholderStore
    (snd (PermissionCheck.checkUserPermission (Some mongoAdapter) placeholderStore
            user config w)).
Proof.
  intros Hfresh.
  destruct (decide (User.role user = "admin")) as [Hadmin|Hother].
  - unfold PermissionCheck.checkUserPermission, try_catch. by rewrite Hadmin.
  - destruct (getCachedRolePermissions_placeholder (User.role user) w Hfresh)
      as [Hread Hkept].
    destruct (PermissionCheck.getCachedRolePermissions (Some mongoAdapter)
                placeholderStore (User.role user) w) as [o w1] eqn:Hrun.
    simpl in Hread, Hkept. subst o.
    rewrite (checkUserPermission_resolved _ _ _ _ _ _ _ Hother Hrun).
    apply cache_fresh_placeholder. rewrite cache_fresh_placeholder in Hkept.
    destruct (PermissionCheck.checkForSelfLockout user config []); [exact Hkept|].
    exact Hkept.
Qed.



(** ** Connecting to the backend *)

Section ConnectFacts.
Import MongoDBAdapter.
Variable env : privateEnv.
Variable mongoose_connect : nat → option JsError.

Lemma connect_loop_unfold (attempts : Z) (k : nat) :
  connect_loop env mongoose_connect attempts k =
  if decide (0 < attempts) then
    match mongoose_connect k with
    | None => (Returned tt, [Connect])
    | Some err =>
      if decide (attempts - 1 <= 0) then (Thrown (fatal err), [Connect])
      else
        let rest := connect_loop env mongoose_connect (attempts - 1) (S k) in
        (fst rest, Connect :: Sleep (or_number (DB_RETRY_DELAY env) 3000) :: snd rest)
    end
  else (Returned tt, []).
Proof.
  funelim (connect_loop env mongoose_connect attempts k);
    repeat match goal with
           | H : decide _ = _ |- _ => rewrite H; clear H
           | H : mongoose_connect _ = _ |- _ => rewrite H; clear H
           end; reflexivity.
Qed.

Lemma connections_retries (m : nat) (tr : list Event) :
  connections (retries (or_number (DB_RETRY_DELAY env) 3000) m ++ tr) = (m + connections tr)%nat.
Proof.
  induction m as [|m IH]; [done|]. unfold connections in *. simpl. by rewrite IH.
Qed.

(** The loop entered with a budget of [n ≥ 1] attempts and [k] calls
    made: it makes [m + 1 ≤ n] calls, the first [m] of them failed and
    each was followed by one wait; it returns when call [k + m] connects,
    and throws when it has used the whole budget. *)
Lemma connect_loop_run (n : nat) :
  ∀ (attempts : Z) (k : nat), 1 ≤ attempts → Z.to_nat attempts = n →
  ∃ m : nat,
    (m < n)%nat
    ∧ snd (connect_loop env mongoose_connect attempts k)
      = retries (or_number (DB_RETRY_DELAY env) 3000) m ++ [Connect]
    ∧ (∀ j, (j < m)%nat → mongoose_connect (k + j)%nat ≠ None)
    ∧ match fst (connect_loop env mongoose_connect attempts k) with
      | Returned _ => mongoose_connect (k + m)%nat = None
      | Thrown e =>
        S m = n ∧ ∃ err, mongoose_connect (k + m)%nat = Some err ∧ e = fatal err
      end.
Proof.
  induction n as [|n IH]; intros attempts k Hpos Hn; [lia|].
  rewrite connect_loop_unfold.
  destruct (decide (0 < attempts)) as [_|]; [|lia].
  destruct (mongoose_connect k) as [err|] eqn:Hk.
  - destruct (decide (attempts - 1 <= 0)) as [Hlast|Hmore].
    + exists 0%nat. rewrite Nat.add_0_r. simpl.
      split; [lia|]. split; [done|]. split; [intros j Hj; lia|].
      split; [lia|]. by exists err.
    + destruct (IH (attempts - 1) (S k)) as (m & Hm & Htr & Hfail & Hres); [lia..|].
      exists (S m). simpl. rewrite Htr.
      split; [lia|]. split; [done|]. split.
      * intros [|j] Hj; [rewrite Nat.add_0_r; congruence|].
        replace (k + S j)%nat with (S k + j)%nat by lia. apply Hfail. lia.
      * replace (k + S m)%nat with (S k + m)%nat by lia.
        destruct (fst (connect_loop env mongoose_connect (attempts - 1) (S k)));
          [done|]. destruct Hres as [Hn' Herr]. split; [lia|done].
  - exists 0%nat. rewrite Nat.add_0_r. simpl.
    split; [lia|]. split; [done|]. split; [intros j Hj; lia|done].
Qed.

End ConnectFacts.

(** C9.  With a budget of [n ≥ 1] attempts, [connect] returns or throws
    after at most [n] calls of [mongoose.connect].  Its trace is: [m] failed
    calls, each followed by one wait of the fixed delay
    ([DB_RETRY_DELAY], or 3000 ms), then one last call, with [m + 1 ≤ n];
    no wait follows the last call.  It returns when that call connects,
    and it throws the fatal error "... failed to connect after maximum
    retries" when that call fails, which happens only when the whole budget
    of [n] calls is used. *)
Theorem connect_bounded (env : MongoDBAdapter.privateEnv)
    (mongoose_connect : nat → option JsError) (n : Z) :
  1 ≤ n →
  let run := MongoDBAdapter.connect env mongoose_connect (Some n) in
  (MongoDBAdapter.connections (snd run) ≤ Z.to_nat n)%nat
  ∧ ∃ m : nat,
      snd run = MongoDBAdapter.retries
                  (MongoDBAdapter.or_number (MongoDBAdapter.DB_RETRY_DELAY env) 3000) m
                ++ [MongoDBAdapter.Connect]
      ∧ MongoDBAdapter.connections (snd run) = S m
      ∧ (∀ j, (j < m)%nat → mongoose_connect j ≠ None)
      ∧ match fst run with
        | Returned _ => mongoose_connect m = None
        | Thrown e =>
          S m = Z.to_nat n
          ∧ ∃ err, mongoose_connect m = Some err ∧ e = MongoDBAdapter.fatal err
        end.
Proof.
  intros Hn run.
  destruct (connect_loop_run env mongoose_connect (Z.to_nat n) n 0%nat Hn eq_refl)
    as (m & Hm & Htr & Hfail & Hres).
  assert (MongoDBAdapter.connections (snd run) = S m) as Hcount.
  { subst run. unfold MongoDBAdapter.connect. simpl. rewrite Htr, connections_retries.
    unfold MongoDBAdapter.connections. simpl. lia. }
  split; [lia|]. exists m. split; [exact Htr|]. split; [exact Hcount|].
  split; [exact Hfail|exact Hres].
Qed.

(** Three attempts against a backend that refuses every connection. *)
Lemma connect_bounded_witness :
  (MongoDBAdapter.connections (snd Scenario.refused) ≤ 3)%nat
  ∧ ∃ m : nat,
      snd Scenario.refused = MongoDBAdapter.retries 3000 m ++ [MongoDBAdapter.Connect]
      ∧ MongoDBAdapter.connections (snd Scenario.refused) = S m
      ∧ (∀ j, (j < m)%nat → Scenario.always_down j ≠ None)
      ∧ match fst Scenario.refused with
        | Returned _ => Scenario.always_down m = None
        | Thrown e =>
          S m = 3%nat
          ∧ ∃ err, Scenario.always_down m = Some err ∧ e = MongoDBAdapter.fatal err
        end.
Proof.
  assert (1 ≤ 3) as Hbudget by lia.
  exact (connect_bounded Scenario.env3 Scenario.always_down 3 Hbudget).
Defined.

(** The runs of the two backends of the examples, with the default
    budget of three attempts. *)
Lemma connect_examples :
  MongoDBAdapter.connect Scenario.env3 Scenario.always_down None
  = (Thrown (Error "MongoDB adapter failed to connect after maximum retries. Error: ECONNREFUSED"),
     [MongoDBAdapter.Connect; MongoDBAdapter.Sleep 3000;
      MongoDBAdapter.Connect; MongoDBAdapter.Sleep 3000; MongoDBAdapter.Connect])
  ∧ MongoDBAdapter.connect Scenario.env3 Scenario.up_at_third None
    = (Returned tt,
       [MongoDBAdapter.Connect; MongoDBAdapter.Sleep 3000;
        MongoDBAdapter.Connect; MongoDBAdapter.Sleep 3000; MongoDBAdapter.Connect]).
Proof. split; reflexivity. Qed.

(** ** Sessions *)

Lemma filter_no_match {A} (q : A → bool) (docs : list A) :
  findOne q docs = None ↔ List.filter q docs = [].
Proof.
  unfold findOne. induction docs as [|d ds IH]; simpl; [done|].
  destruct (q d); [done|apply IH].
Qed.

Lemma filter_first_match {A} (q : A → bool) (docs : list A) (d : A) :
  findOne q docs = Some d → ∃ rest, List.filter q docs = d :: rest.
Proof.
  unfold findOne. induction docs as [|x xs IH]; simpl; [done|].
  destruct (q x); [intros [= ->]; eauto|apply IH].
Qed.

Lemma deleteMany_no_match {A} (q : A → bool) (docs : list A) :
  findOne q docs = None → deleteMany q docs = docs.
Proof.
  unfold findOne, deleteMany. induction docs as [|d ds IH]; simpl; [done|].
  destruct (q d); [done|]. intros H. simpl. by rewrite IH.
Qed.

Lemma deleteMany_clean {A} (q : A → bool) (docs : list A) (d : A) :
  d ∈ deleteMany q docs → q d = false.
Proof.
  unfold deleteMany. rewrite list_elem_of_In, List.filter_In.
  intros [_ H]. by apply negb_true_iff.
Qed.

(** The MongoDB adapter does what the specification asks of an expired
    session: it returns [null], it deletes the record in the same call, and
    the session is in no later list of active sessions. *)
Lemma mongo_validateSession_expired (now : Z) (session_id : string) (w : World)
    (session : Session.t) :
  findOne (λ s, (Session._id s =? session_id)%string) (SessionModel w) = Some session →
  Session.expires session ≤ now →
  MongoDBAuthAdapter.validateSession now session_id w
  = (Returned None,
     set_sessions (deleteOne (λ s, (Session._id s =? session_id)%string)) w)
  ∧ S (length (SessionModel (snd (MongoDBAuthAdapter.validateSession now session_id w))))
    = length (SessionModel w)
  ∧ ∀ now' user_id w', now ≤ now' →
      ∀ active, fst (MongoDBAuthAdapter.getActiveSessions now' user_id w') = Returned active →
      session ∉ active.
Proof.
  intros Hfind Hexp.
  assert (MongoDBAuthAdapter.validateSession now session_id w
          = (Returned None,
             set_sessions (deleteOne (λ s, (Session._id s =? session_id)%string)) w)) as Hrun.
  { unfold MongoDBAuthAdapter.validateSession, mbind, M_bind, gets. rewrite Hfind.
    by destruct (Z.leb_spec (Session.expires session) now); [|lia]. }
  split; [exact Hrun|]. split.
  - rewrite Hrun. simpl. by apply deleteOne_length with session.
  - intros now' user_id w' Hlater active [= <-].
    rewrite list_elem_of_In, List.filter_In, andb_true_iff, Z.ltb_lt. lia.
Qed.

(** The Drizzle adapter only reads: [validateSession] changes nothing. *)
Lemma drizzle_validateSession_reads (now : Z) (session_id : string) (w : World) :
  snd (DrizzleAuthAdapter.validateSession now session_id w) = w.
Proof.
  unfold DrizzleAuthAdapter.validateSession, mbind, M_bind, gets.
  by destruct (findOne _ (SessionModel w)).
Qed.

(** [Auth.validateSession] only reads, and it does not read [expires]:
    for a session that exists and whose user exists it returns the user,
    whenever the session expires. *)
Lemma auth_validateSession_ignores_expiry (ObjectId_isValid : string → bool)
    (session_id : string) (w : World) (session : Session.t) (user : User.t) :
  ObjectId_isValid session_id = true →
  findOne (λ s, (Session._id s =? session_id)%string) (SessionModel w) = Some session →
  findOne (MongoDBAuthAdapter.by_id (Session.user_id session)) (UserModel w) = Some user →
  Auth.validateSession ObjectId_isValid session_id w = (Returned (Some (Auth.delete_id user)), w).
Proof.
  intros Hvalid Hs Hu. unfold Auth.validateSession, mbind, M_bind, gets.
  rewrite Hvalid. simpl. by rewrite Hs, Hu.
Qed.

(** C1, on the code.  The session "s1" of alice expired at time 5, and
    it is validated at time 10.  The MongoDB adapter returns [null] and
    deletes the record.  The Drizzle adapter returns [null] and leaves the
    record in the table (its list of active sessions does not show it).
    [Auth.validateSession] returns alice: the expired session validates,
    and the record stays. *)
Theorem expired_session_validation :
  MongoDBAuthAdapter.validateSession 10 "s1" Scenario.world
  = (Returned None, set_sessions (λ _, []) Scenario.world)
  ∧ DrizzleAuthAdapter.validateSession 10 "s1" Scenario.world
    = (Returned None, Scenario.world)
  ∧ Scenario.stale_session
    ∈ SessionModel (snd (DrizzleAuthAdapter.validateSession 10 "s1" Scenario.world))
  ∧ DrizzleAuthAdapter.getActiveSessions 10 "u_alice" Scenario.world
    = (Returned [], Scenario.world)
  ∧ Auth.validateSession Scenario.accept_all "s1" Scenario.world
    = (Returned (Some (Auth.delete_id Scenario.alice)), Scenario.world).
Proof.
  split; [reflexivity|]. split; [reflexivity|]. split; [|split; reflexivity].
  vm_compute. apply list_elem_of_here.
Qed.

(** C10.  [Auth.validateSession] on a session id with no record does not
    return [null]: it throws (the dereference of [null] in
    [session.user_id]; or the conversion to an ObjectId, when the string is
    refused), and the state is unchanged.  It returns [null] exactly when
    the id is accepted, the session record exists, and no user record has
    the session's [user_id]. *)
Theorem auth_validateSession_absent (ObjectId_isValid : string → bool)
    (session_id : string) (w : World) :
  (findOne (λ s, (Session._id s =? session_id)%string) (SessionModel w) = None →
   ∃ e, Auth.validateSession ObjectId_isValid session_id w = (Thrown e, w)
        ∧ (ObjectId_isValid session_id = true →
           e = TypeError "Cannot read properties of null (reading 'user_id')"))
  ∧ (fst (Auth.validateSession ObjectId_isValid session_id w) = Returned None ↔
     ObjectId_isValid session_id = true
     ∧ ∃ session,
         findOne (λ s, (Session._id s =? session_id)%string) (SessionModel w) = Some session
         ∧ findOne (MongoDBAuthAdapter.by_id (Session.user_id session)) (UserModel w) = None).
Proof.
  unfold Auth.validateSession, mbind, M_bind, gets, throw. split.
  - intros Hnone.
    destruct (ObjectId_isValid session_id); simpl; [rewrite Hnone|];
      eexists; split; done.
  - destruct (ObjectId_isValid session_id); simpl.
    + destruct (findOne _ (SessionModel w)) as [session|]; simpl.
      * destruct (findOne _ (UserModel w)) as [user|] eqn:Hu; simpl.
        -- split; [done|]. intros (_ & s & [= <-] & Hnone). congruence.
        -- split; [|done]. intros _. split; [done|]. by exists session.
      * split; [done|]. intros (_ & s & Hs & _). done.
    + split; [done|]. intros (H & _). done.
Qed.

Lemma auth_validateSession_absent_witness :
  ∃ e, Auth.validateSession Scenario.accept_all "s2" Scenario.world
       = (Thrown e, Scenario.world)
       ∧ (Scenario.accept_all "s2" = true →
          e = TypeError "Cannot read properties of null (reading 'user_id')").
Proof.
  apply (proj1 (auth_validateSession_absent Scenario.accept_all "s2" Scenario.world)).
  reflexivity.
Defined.

(** ** Tokens *)

Lemma findOne_app_fresh {A} (q : A → bool) (docs : list A) (d : A) :
  findOne q docs = None → q d = true →
  findOne q (docs ++ [d]) = Some d ∧ deleteOne q (docs ++ [d]) = docs
  ∧ List.filter q (docs ++ [d]) = [d] ∧ deleteMany q (docs ++ [d]) = docs.
Proof.
  unfold findOne, deleteMany. intros Hnone Hq.
  induction docs as [|x xs IH]; simpl in *.
  - by rewrite Hq.
  - destruct (q x); [done|]. simpl. destruct (IH Hnone) as (-> & -> & -> & ->). done.
Qed.

Lemma set_tokens_set_tokens (f g : list Token.t → list Token.t) (w : World) :
  set_tokens g (set_tokens f w) = set_tokens (λ ts, g (f ts)) w.
Proof. done. Qed.

(** [consumeToken] of the MongoDB adapter, when both readings of the
    clock are [now]. *)
Lemma mongo_consumeToken_run (now : Z) (token user_id : string) (w : World) :
  MongoDBAuthAdapter.consumeToken now now token user_id w =
  (Returned
     match findOne (MongoDBAuthAdapter.token_query token user_id) (TokenModel w) with
     | Some t =>
       {| MongoDBAuthAdapter.status := now <? Token.expires t;
          MongoDBAuthAdapter.reason :=
            if now <? Token.expires t then "Token is valid" else "Token is expired" |}
     | None =>
       {| MongoDBAuthAdapter.status := false;
          MongoDBAuthAdapter.reason := "Token does not exist" |}
     end,
   set_tokens (deleteOne (MongoDBAuthAdapter.token_query token user_id)) w).
Proof.
  unfold MongoDBAuthAdapter.consumeToken, mbind, M_bind, gets, modify. simpl.
  by destruct (findOne _ (TokenModel w)).
Qed.

Lemma drizzle_consumeToken_run (now : Z) (token user_id type : string) (w : World) :
  DrizzleAuthAdapter.consumeToken now token user_id type w =
  (Returned
     match findOne (DrizzleAuthAdapter.token_query token user_id type) (TokenModel w) with
     | Some t =>
       {| MongoDBAuthAdapter.status := now <? Token.expires t;
          MongoDBAuthAdapter.reason :=
            if now <? Token.expires t then "Token is valid" else "Token is expired" |}
     | None =>
       {| MongoDBAuthAdapter.status := false;
          MongoDBAuthAdapter.reason := "Token does not exist" |}
     end,
   set_tokens (deleteMany (DrizzleAuthAdapter.token_query token user_id type)) w).
Proof.
  unfold DrizzleAuthAdapter.consumeToken, mbind, M_bind, gets, modify. simpl.
  destruct (findOne _ (TokenModel w)) as [t|] eqn:Hfind.
  - apply filter_first_match in Hfind as [rest ->].
    by destruct (now <? Token.expires t).
  - apply filter_no_match in Hfind as ->. done.
Qed.

(** [consumeToken] of the MongoDB adapter, for the two readings of the
    clock: the message is judged at the first, the flag at the second. *)
Lemma mongo_consumeToken_readings (now now' : Z) (token user_id : string) (w : World) :
  MongoDBAuthAdapter.consumeToken now now' token user_id w =
  (Returned
     match findOne (MongoDBAuthAdapter.token_query token user_id) (TokenModel w) with
     | Some t =>
       {| MongoDBAuthAdapter.status := now' <? Token.expires t;
          MongoDBAuthAdapter.reason :=
            if now <? Token.expires t then "Token is valid" else "Token is expired" |}
     | None =>
       {| MongoDBAuthAdapter.status := false;
          MongoDBAuthAdapter.reason := "Token does not exist" |}
     end,
   set_tokens (deleteOne (MongoDBAuthAdapter.token_query token user_id)) w).
Proof.
  unfold MongoDBAuthAdapter.consumeToken, mbind, M_bind, gets, modify. simpl.
  by destruct (findOne _ (TokenModel w)).
Qed.

(** The outcomes of [consumeToken] of the MongoDB adapter, for a clock
    that does not run backwards ([now ≤ now']).
    - No matching record: status [false], "Token does not exist", and the
      collection is unchanged.
    - A matching record is deleted, whenever it expires, and
      - with [expires ≤ now]: status [false], "Token is expired";
      - with [now' < expires]: status [true], "Token is valid";
      - with [now < expires ≤ now']: status [false], "Token is valid". *)
Lemma mongo_consumeToken_outcomes (now now' : Z) (token user_id : string) (w : World) :
  now ≤ now' →
  (findOne (MongoDBAuthAdapter.token_query token user_id) (TokenModel w) = None →
   MongoDBAuthAdapter.consumeToken now now' token user_id w
   = (Returned {| MongoDBAuthAdapter.status := false;
                  MongoDBAuthAdapter.reason := "Token does not exist" |}, w))
  ∧ (∀ t, findOne (MongoDBAuthAdapter.token_query token user_id) (TokenModel w) = Some t →
       S (length (TokenModel (snd (MongoDBAuthAdapter.consumeToken now now' token user_id w))))
       = length (TokenModel w)
       ∧ snd (MongoDBAuthAdapter.consumeToken now now' token user_id w)
         = set_tokens (deleteOne (MongoDBAuthAdapter.token_query token user_id)) w
       ∧ (Token.expires t ≤ now →
          fst (MongoDBAuthAdapter.consumeToken now now' token user_id w)
          = Returned {| MongoDBAuthAdapter.status := false;
                        MongoDBAuthAdapter.reason := "Token is expired" |})
       ∧ (now' < Token.expires t →
          fst (MongoDBAuthAdapter.consumeToken now now' token user_id w)
          = Returned {| MongoDBAuthAdapter.status := true;
                        MongoDBAuthAdapter.reason := "Token is valid" |})
       ∧ (now < Token.expires t ≤ now' →
          fst (MongoDBAuthAdapter.consumeToken now now' token user_id w)
          = Returned {| MongoDBAuthAdapter.status := false;
                        MongoDBAuthAdapter.reason := "Token is valid" |})).
Proof.
  intros Hclock. rewrite mongo_consumeToken_readings. split.
  - intros Hnone. rewrite Hnone.
    by rewrite (set_tokens_fix _ _ (deleteOne_no_match _ _ Hnone)).
  - intros t Hfind. rewrite Hfind. simpl.
    split; [by apply deleteOne_length with t|]. split; [done|].
    destruct (Z.ltb_spec now (Token.expires t)), (Z.ltb_spec now' (Token.expires t));
      repeat split; intros; first [done | lia].
Qed.

(** The outcomes of [consumeToken] of the Drizzle adapter, which reads
    the clock once: "Token does not exist" and an unchanged table when no
    row matches; else every matching row is deleted, and the first is
    reported expired ([expires ≤ now]) or valid ([now < expires]). *)
Lemma drizzle_consumeToken_outcomes (now : Z) (token user_id type : string) (w : World) :
  (findOne (DrizzleAuthAdapter.token_query token user_id type) (TokenModel w) = None →
   DrizzleAuthAdapter.consumeToken now token user_id type w
   = (Returned {| MongoDBAuthAdapter.status := false;
                  MongoDBAuthAdapter.reason := "Token does not exist" |}, w))
  ∧ (∀ t, findOne (DrizzleAuthAdapter.token_query token user_id type) (TokenModel w) = Some t →
       (∀ t', t' ∈ TokenModel (snd (DrizzleAuthAdapter.consumeToken now token user_id type w)) →
              DrizzleAuthAdapter.token_query token user_id type t' = false)
       ∧ snd (DrizzleAuthAdapter.consumeToken now token user_id type w)
         = set_tokens (deleteMany (DrizzleAuthAdapter.token_query token user_id type)) w
       ∧ (Token.expires t ≤ now →
          fst (DrizzleAuthAdapter.consumeToken now token user_id type w)
          = Returned {| MongoDBAuthAdapter.status := false;
                        MongoDBAuthAdapter.reason := "Token is expired" |})
       ∧ (now < Token.expires t →
          fst (DrizzleAuthAdapter.consumeToken now token user_id type w)
          = Returned {| MongoDBAuthAdapter.status := true;
                        MongoDBAuthAdapter.reason := "Token is valid" |})).
Proof.
  rewrite drizzle_consumeToken_run. split.
  - intros Hnone. rewrite Hnone.
    by rewrite (set_tokens_fix _ _ (deleteMany_no_match _ _ Hnone)).
  - intros t Hfind. rewrite Hfind. simpl.
    split; [intros t'; apply deleteMany_clean|]. split; [done|]. split; intros Hexp.
    + by destruct (Z.ltb_spec now (Token.expires t)); [lia|].
    + by destruct (Z.ltb_spec now (Token.expires t)); [|lia].
Qed.

(** A token issued by the MongoDB adapter with [ttl = 0] at time [issue]
    expires at [issue]: every later reading of the clock finds it
    expired.  [validateToken] reports it expired and keeps it;
    [consumeToken] reports it expired and deletes it, and the collection
    is again what it was before the token was issued. *)
Lemma mongo_ttl_zero (issue now now' : Z) (tokenString user_id email : string) (w : World) :
  issue ≤ now → issue ≤ now' →
  findOne (MongoDBAuthAdapter.token_query tokenString user_id) (TokenModel w) = None →
  MongoDBAuthAdapter.validateToken now now' tokenString user_id
    (snd (MongoDBAuthAdapter.createToken issue tokenString user_id email 0 w))
  = (Returned {| MongoDBAuthAdapter.status := false;
                 MongoDBAuthAdapter.reason := "Token is expired" |},
     snd (MongoDBAuthAdapter.createToken issue tokenString user_id email 0 w))
  ∧ MongoDBAuthAdapter.consumeToken now now' tokenString user_id
      (snd (MongoDBAuthAdapter.createToken issue tokenString user_id email 0 w))
    = (Returned {| MongoDBAuthAdapter.status := false;
                   MongoDBAuthAdapter.reason := "Token is expired" |}, w).
Proof.
  intros Hnow Hnow' Hfresh.
  set (t := Token.mk user_id tokenString (Some email) None (issue + 0)).
  assert (MongoDBAuthAdapter.token_query tokenString user_id t = true) as Hq.
  { unfold MongoDBAuthAdapter.token_query. simpl. by rewrite !String.eqb_refl. }
  destruct (findOne_app_fresh _ _ _ Hfresh Hq) as (Hfind & Hdel & _ & _).
  assert ((now <? issue + 0) = false) as Hexp by (apply Z.ltb_ge; lia).
  assert ((now' <? issue + 0) = false) as Hexp' by (apply Z.ltb_ge; lia).
  split.
  - unfold MongoDBAuthAdapter.validateToken, mbind, M_bind, gets. simpl.
    fold t. rewrite Hfind. simpl. by rewrite Hexp, Hexp'.
  - rewrite mongo_consumeToken_readings. simpl. fold t.
    rewrite Hfind. simpl. rewrite Hexp, Hexp'. f_equal.
    destruct w. unfold set_tokens. simpl in *. fold t. by rewrite Hdel.
Qed.

(** C4, on the code.  A token of alice expires at time 10.
    [consumeToken] of the MongoDB adapter evaluates
    [tokenDoc.expires > new Date()] twice, once for the message and once
    for the status.  With the first reading of the clock at 9 and the
    second at 10 it deletes the token and answers status [false] with the
    message "Token is valid": none of the three outcomes.  The Drizzle
    adapter compares once: consumed at time 9 the token is valid with
    status [true], consumed at time 10 it is expired with status [false],
    and it is deleted both times. *)
Theorem consumeToken_clock_race :
  MongoDBAuthAdapter.consumeToken 9 10 "t1" "u_alice" Scenario.world_token
  = (Returned {| MongoDBAuthAdapter.status := false;
                 MongoDBAuthAdapter.reason := "Token is valid" |}, Scenario.world)
  ∧ DrizzleAuthAdapter.consumeToken 9 "t1" "u_alice" "reset" Scenario.world_reset_token
    = (Returned {| MongoDBAuthAdapter.status := true;
                   MongoDBAuthAdapter.reason := "Token is valid" |}, Scenario.world)
  ∧ DrizzleAuthAdapter.consumeToken 10 "t1" "u_alice" "reset" Scenario.world_reset_token
    = (Returned {| MongoDBAuthAdapter.status := false;
                   MongoDBAuthAdapter.reason := "Token is expired" |}, Scenario.world).
Proof. repeat split; reflexivity. Qed.

(** ** Passwords *)

Lemma findOne_updateOne {A} (q : A → bool) (f : A → A) (docs : list A) (d : A) :
  findOne q docs = Some d → q (f d) = true →
  findOne q (updateOne q f docs) = Some (f d).
Proof.
  unfold findOne. intros Hfind Hq.
  induction docs as [|x xs IH]; simpl in *; [done|].
  destruct (q x) eqn:Hx.
  - injection Hfind as ->. simpl. by rewrite Hq.
  - simpl. rewrite Hx. by apply IH.
Qed.

(** [Auth.createUser] stores the Argon2 hash of a password. *)
Lemma auth_createUser_hashes (argon2_hash : string → string) (id email password role : string)
    (w : World) :
  password ≠ "" →
  fst (Auth.createUser argon2_hash id email (Some password) role w)
  = Returned (User.mk (Some id) email (Some (argon2_hash password)) role [] [])
  ∧ UserModel (snd (Auth.createUser argon2_hash id email (Some password) role w))
    = UserModel w ++ [User.mk (Some id) email (Some (argon2_hash password)) role [] []].
Proof.
  intros Hne. unfold Auth.createUser, truthy.
  apply string_eqb_neq in Hne. rewrite Hne. done.
Qed.

(** [Auth.updateUserAttributes] stores the Argon2 hash of a new
    password. *)
Lemma auth_updateUserAttributes_hashes (argon2_hash : string → string) (user stored : User.t)
    (email role : option string) (password : string) (w : World) :
  password ≠ "" →
  findOne (Auth.same_id user) (UserModel w) = Some stored →
  User.password
    <$> findOne (Auth.same_id user)
          (UserModel (snd (Auth.updateUserAttributes argon2_hash user
                             (UserPatch.mk email (Some password) role) w)))
  = Some (Some (argon2_hash password)).
Proof.
  intros Hne Hfind. unfold Auth.updateUserAttributes, truthy. simpl.
  apply string_eqb_neq in Hne. rewrite Hne. simpl.
  erewrite findOne_updateOne; [done|exact Hfind|].
  apply findOne_Some in Hfind as [_ Hq]. exact Hq.
Qed.

(** [UserAdapter.changePassword] stores its argument as it is. *)
Lemma changePassword_verbatim (user_id newPassword : string) (w : World) (stored : User.t) :
  findOne (MongoDBAuthAdapter.by_id user_id) (UserModel w) = Some stored →
  User.password
    <$> findOne (MongoDBAuthAdapter.by_id user_id)
          (UserModel (snd (UserAdapter.changePassword user_id newPassword w)))
  = Some (Some newPassword).
Proof.
  intros Hfind. unfold UserAdapter.changePassword. simpl.
  erewrite findOne_updateOne; [done|exact Hfind|].
  apply findOne_Some in Hfind as [_ Hq]. exact Hq.
Qed.

(** C8, on the code.  alice changes her password to "hunter2".
    Through [Auth.updateUserAttributes] the record holds the Argon2 string
    of the password.  Through [UserAdapter.changePassword] the record holds
    "hunter2" itself, which is no Argon2 string. *)
Theorem changePassword_stores_plaintext :
  User.password
    <$> findOne (MongoDBAuthAdapter.by_id "u_alice")
          (UserModel (snd (Auth.updateUserAttributes Scenario.toy_hash Scenario.alice
                             (UserPatch.mk None (Some "hunter2") None) Scenario.world)))
  = Some (Some (Scenario.toy_hash "hunter2"))
  ∧ argon2_encoded (Scenario.toy_hash "hunter2") = true
  ∧ User.password
      <$> findOne (MongoDBAuthAdapter.by_id "u_alice")
            (UserModel (snd (UserAdapter.changePassword "u_alice" "hunter2" Scenario.world)))
    = Some (Some "hunter2")
  ∧ argon2_encoded "hunter2" = false.
Proof. repeat split; reflexivity. Qed.

(** * Further properties of the code *)

#[local] Set Warnings "-clear-no-such-hyp".

(** ** Collections *)

Lemma updateOne_no_match {A} (q : A → bool) (f : A → A) (docs : list A) :
  findOne q docs = None → updateOne q f docs = docs.
Proof.
  unfold findOne. induction docs as [|d ds IH]; simpl; [done|].
  destruct (q d); [done|]. intros H. by rewrite IH.
Qed.

Lemma set_sessions_fix (f : list Session.t → list Session.t) (w : World) :
  f (SessionModel w) = SessionModel w → set_sessions f w = w.
Proof. destruct w. unfold set_sessions. simpl. by intros ->. Qed.


Lemma set_roles_fix (f : list Role.t → list Role.t) (w : World) :
  f (RoleModel w) = RoleModel w → set_roles f w = w.
Proof. destruct w. unfold set_roles. simpl. by intros ->. Qed.

Lemma filter_length_split {A} (q : A → bool) (docs : list A) :
  (length docs - length (deleteMany q docs))%nat = length (List.filter q docs).
Proof.
  unfold deleteMany. induction docs as [|d ds IH]; simpl; [done|].
  destruct (q d); simpl; [|exact IH].
  assert (length (List.filter (λ d, negb (q d)) ds) ≤ length ds)%nat
    by apply List.filter_length_le.
  lia.
Qed.

Lemma filter_filter_implied {A} (p q : A → bool) (docs : list A) :
  (∀ d, p d = true → q d = true) →
  List.filter p (List.filter q docs) = List.filter p docs.
Proof.
  intros Himp. induction docs as [|d ds IH]; simpl; [done|].
  destruct (q d) eqn:Hq; simpl.
  - by rewrite IH.
  - destruct (p d) eqn:Hp; [|done]. apply Himp in Hp. congruence.
Qed.

Lemma filter_none {A} (q : A → bool) (docs : list A) :
  (∀ d, d ∈ docs → q d = false) → List.filter q docs = [].
Proof.
  induction docs as [|d ds IH]; simpl; [done|]. intros H.
  rewrite (H d) by apply list_elem_of_here.
  apply IH. intros d' Hd'. apply H. by apply list_elem_of_further.
Qed.

(** ** Sessions *)

(** X1.  [validateSession] of the MongoDB adapter is sound: when it
    returns a user, the session record exists, it is not expired
    ([now < expires]), the user is the one the session names, and the call
    has changed nothing. *)
Theorem validateSession_sound (now : Z) (session_id : string) (w w' : World) (user : User.t) :
  MongoDBAuthAdapter.validateSession now session_id w = (Returned (Some user), w') →
  w' = w
  ∧ ∃ session,
      session ∈ SessionModel w
      ∧ Session._id session = session_id
      ∧ now < Session.expires session
      ∧ findOne (MongoDBAuthAdapter.by_id (Session.user_id session)) (UserModel w) = Some user.
Proof.
  intros H.
  unfold MongoDBAuthAdapter.validateSession, mbind, M_bind, gets in H.
  destruct (findOne _ (SessionModel w)) as [session|] eqn:Hfind; [|done].
  destruct (Z.leb_spec (Session.expires session) now); [done|].
  injection H as Hu <-. split; [done|]. exists session.
  apply findOne_Some in Hfind as [Hin Hq]. apply String.eqb_eq in Hq. done.
Qed.

Lemma validateSession_sound_witness :
  Scenario.busy_world = Scenario.busy_world
  ∧ ∃ session,
      session ∈ SessionModel Scenario.busy_world
      ∧ Session._id session = "s2"
      ∧ 10 < Session.expires session
      ∧ findOne (MongoDBAuthAdapter.by_id (Session.user_id session))
          (UserModel Scenario.busy_world) = Some Scenario.alice.
Proof.
  apply (validateSession_sound 10 "s2" Scenario.busy_world Scenario.busy_world Scenario.alice).
  reflexivity.
Defined.

(** The Drizzle adapter selects a session under the condition
    [expires > CURRENT_TIMESTAMP], which no row meets: [validateSession]
    returns [null] for every session id and [getActiveSessions] the empty
    list for every user, at every time, and neither changes the tables. *)
Lemma drizzle_sessions_never_selected (now : Z) (id : string) (w : World) :
  DrizzleAuthAdapter.validateSession now id w = (Returned None, w)
  ∧ DrizzleAuthAdapter.getActiveSessions now id w = (Returned [], w).
Proof.
  unfold DrizzleAuthAdapter.validateSession, DrizzleAuthAdapter.getActiveSessions,
    DrizzleAuthAdapter.expires_gt_CURRENT_TIMESTAMP, mbind, M_bind, gets.
  assert (∀ q : Session.t → bool, List.filter (λ s, q s && false) (SessionModel w) = [])
    as Hnone by (intros q; apply filter_none; intros s _; apply andb_false_r).
  split; [|by rewrite Hnone].
  by rewrite (proj2 (filter_no_match _ _) (Hnone _)).
Qed.

(** X2.  A session made by [createSession] with a fresh id for an
    existing user validates to that user at every time before
    [now + expires], without changing the store; validated at or after
    that time it gives [null], and the store is again what it was before
    the session was created. *)
Theorem mongo_session_round_trip (now ttl now' : Z) (newId user_id : string) (w : World)
    (user : User.t) :
  findOne (λ s, (Session._id s =? newId)%string) (SessionModel w) = None →
  findOne (MongoDBAuthAdapter.by_id user_id) (UserModel w) = Some user →
  fst (MongoDBAuthAdapter.createSession now newId user_id ttl w)
  = Returned (Session.mk newId user_id (now + ttl))
  ∧ (now' < now + ttl →
     MongoDBAuthAdapter.validateSession now' newId
       (snd (MongoDBAuthAdapter.createSession now newId user_id ttl w))
     = (Returned (Some user), snd (MongoDBAuthAdapter.createSession now newId user_id ttl w)))
  ∧ (now + ttl ≤ now' →
     MongoDBAuthAdapter.validateSession now' newId
       (snd (MongoDBAuthAdapter.createSession now newId user_id ttl w))
     = (Returned None, w)).
Proof.
  intros Hfresh Huser. split; [done|].
  set (session := Session.mk newId user_id (now + ttl)).
  assert ((λ s, (Session._id s =? newId)%string) session = true) as Hq
    by (simpl; apply String.eqb_refl).
  destruct (findOne_app_fresh _ _ _ Hfresh Hq) as (Hfind & Hdel & _ & _).
  unfold MongoDBAuthAdapter.validateSession, MongoDBAuthAdapter.createSession,
    mbind, M_bind, gets, modify. simpl. fold session. rewrite Hfind. simpl.
  split; intros Htime.
  - destruct (Z.leb_spec (now + ttl) now'); [lia|]. subst session. simpl.
    by rewrite Huser.
  - destruct (Z.leb_spec (now + ttl) now'); [|lia]. f_equal.
    destruct w. unfold set_sessions. simpl in *. fold session. by rewrite Hdel.
Qed.

Lemma mongo_session_round_trip_witness :
  MongoDBAuthAdapter.validateSession 200 "s9" Scenario.world_session
  = (Returned (Some Scenario.alice), Scenario.world_session)
  ∧ MongoDBAuthAdapter.validateSession 3700 "s9" Scenario.world_session
    = (Returned None, Scenario.world).
Proof.
  split.
  - apply (proj1 (proj2 (mongo_session_round_trip 100 3600 200 "s9" "u_alice"
                           Scenario.world Scenario.alice eq_refl eq_refl))).
    lia.
  - apply (proj2 (proj2 (mongo_session_round_trip 100 3600 3700 "s9" "u_alice"
                           Scenario.world Scenario.alice eq_refl eq_refl))).
    lia.
Defined.

(** X3.  [deleteExpiredSessions] and [deleteExpiredTokens] of the MongoDB
    adapter return the number of records with [expires ≤ now], leave
    exactly the records with [now < expires], in their order, and so do not
    change the active sessions of any user; called again at the same time
    they delete nothing and return 0. *)
Theorem deleteExpired_sweeps (now : Z) (w : World) :
  (fst (MongoDBAuthAdapter.deleteExpiredSessions now w)
   = Returned (length (List.filter (λ s, Session.expires s <=? now) (SessionModel w)))
   ∧ SessionModel (snd (MongoDBAuthAdapter.deleteExpiredSessions now w))
     = List.filter (λ s, now <? Session.expires s) (SessionModel w)
   ∧ (∀ user_id,
        fst (MongoDBAuthAdapter.getActiveSessions now user_id
               (snd (MongoDBAuthAdapter.deleteExpiredSessions now w)))
        = fst (MongoDBAuthAdapter.getActiveSessions now user_id w))
   ∧ MongoDBAuthAdapter.deleteExpiredSessions now
       (snd (MongoDBAuthAdapter.deleteExpiredSessions now w))
     = (Returned 0%nat, snd (MongoDBAuthAdapter.deleteExpiredSessions now w)))
  ∧ (fst (MongoDBAuthAdapter.deleteExpiredTokens now w)
     = Returned (length (List.filter (λ t, Token.expires t <=? now) (TokenModel w)))
     ∧ TokenModel (snd (MongoDBAuthAdapter.deleteExpiredTokens now w))
       = List.filter (λ t, now <? Token.expires t) (TokenModel w)
     ∧ MongoDBAuthAdapter.deleteExpiredTokens now
         (snd (MongoDBAuthAdapter.deleteExpiredTokens now w))
       = (Returned 0%nat, snd (MongoDBAuthAdapter.deleteExpiredTokens now w))).
Proof.
  assert (∀ {A} (expires : A → Z) (l : list A),
            deleteMany (λ x, expires x <=? now) l = List.filter (λ x, now <? expires x) l)
    as Hlive.
  { intros A expires l. unfold deleteMany. apply List.filter_ext. intros x.
    destruct (Z.leb_spec (expires x) now), (Z.ltb_spec now (expires x)); simpl; lia || done. }
  assert (∀ {A} (expires : A → Z) (l : list A),
            deleteMany (λ x, expires x <=? now) (deleteMany (λ x, expires x <=? now) l)
            = deleteMany (λ x, expires x <=? now) l) as Hagain.
  { intros A expires l. unfold deleteMany. apply filter_filter_implied. done. }
  split.
  - unfold MongoDBAuthAdapter.deleteExpiredSessions, mbind, M_bind, gets, modify. simpl.
    split; [by rewrite filter_length_split|]. split; [apply Hlive|]. split.
    + intros user_id. unfold MongoDBAuthAdapter.getActiveSessions, gets. simpl.
      f_equal. rewrite Hlive. apply filter_filter_implied.
      intros s Hs. by apply andb_true_iff in Hs as [_ Hs].
    + rewrite Hagain, Nat.sub_diag. f_equal.
      destruct w. unfold set_sessions. simpl. by rewrite Hagain.
  - unfold MongoDBAuthAdapter.deleteExpiredTokens, mbind, M_bind, gets, modify. simpl.
    split; [by rewrite filter_length_split|]. split; [apply Hlive|].
    rewrite Hagain, Nat.sub_diag. f_equal.
    destruct w. unfold set_tokens. simpl. by rewrite Hagain.
Qed.

(** X4.  [invalidateAllUserSessions] of the MongoDB adapter removes
    every session of the user and keeps the sessions of the others, in
    their order.  [Auth.invalidateAllUserSessions], which deletes the
    sessions it found one by one by their [_id], leaves the same store when
    the session ids are pairwise different. *)
Theorem invalidateAllUserSessions_agree (user_id : string) (w : World) :
  NoDup (Session._id <$> SessionModel w) →
  SessionModel (snd (MongoDBAuthAdapter.invalidateAllUserSessions user_id w))
  = List.filter (λ s, negb (Session.user_id s =? user_id)%string) (SessionModel w)
  ∧ (∀ now, MongoDBAuthAdapter.getActiveSessions now user_id
              (snd (MongoDBAuthAdapter.invalidateAllUserSessions user_id w))
            = (Returned [], snd (MongoDBAuthAdapter.invalidateAllUserSessions user_id w)))
  ∧ Auth.invalidateAllUserSessions user_id w
    = MongoDBAuthAdapter.invalidateAllUserSessions user_id w.
Proof.
  intros Hnodup. split; [done|]. split.
  - intros now. unfold MongoDBAuthAdapter.getActiveSessions, gets. do 2 f_equal. simpl.
    apply filter_none. intros s Hs.
    apply deleteMany_clean in Hs. by rewrite Hs.
  - unfold Auth.invalidateAllUserSessions, MongoDBAuthAdapter.invalidateAllUserSessions,
      mbind, M_bind, gets, modify. simpl. f_equal.
    destruct w as [us ss ts rs ps c lg]. unfold set_sessions. simpl in *. f_equal.
    clear -Hnodup. unfold deleteMany.
    set (p := λ s, (Session.user_id s =? user_id)%string).
    set (step := λ remaining session,
           deleteOne (λ s, (Session._id s =? Session._id session)%string) remaining).
    assert (∀ (found : list Session.t) (x : Session.t) (acc : list Session.t),
              (∀ s, s ∈ found → Session._id s ≠ Session._id x) →
              fold_left step found (x :: acc) = x :: fold_left step found acc) as Hskip.
    { induction found as [|f fs IH]; intros x acc Hne; [done|]. simpl.
      unfold step at 2 4. simpl.
      assert ((Session._id x =? Session._id f)%string = false) as ->.
      { apply string_eqb_neq. intros Heq. apply (Hne f); [apply list_elem_of_here|done]. }
      apply IH. intros s Hs. apply Hne. by apply list_elem_of_further. }
    induction ss as [|x xs IH]; [done|]. simpl.
    apply NoDup_cons in Hnodup as [Hx Hxs]. fold (p x).
    destruct (p x) eqn:Hp; simpl.
    + unfold step at 2. simpl. rewrite String.eqb_refl. by apply IH.
    + rewrite Hskip; [by rewrite IH|].
      intros s Hs Heq. apply Hx. rewrite <- Heq.
      apply list_elem_of_fmap. exists s. split; [done|].
      apply list_elem_of_In. apply list_elem_of_In in Hs.
      by apply List.filter_In in Hs as [Hs _].
Qed.

Lemma invalidateAllUserSessions_agree_witness :
  SessionModel (snd (MongoDBAuthAdapter.invalidateAllUserSessions "u_alice" Scenario.busy_world))
  = List.filter (λ s, negb (Session.user_id s =? "u_alice")%string)
      (SessionModel Scenario.busy_world)
  ∧ (∀ now, MongoDBAuthAdapter.getActiveSessions now "u_alice"
              (snd (MongoDBAuthAdapter.invalidateAllUserSessions "u_alice"
                      Scenario.busy_world))
            = (Returned [],
               snd (MongoDBAuthAdapter.invalidateAllUserSessions "u_alice"
                      Scenario.busy_world)))
  ∧ Auth.invalidateAllUserSessions "u_alice" Scenario.busy_world
    = MongoDBAuthAdapter.invalidateAllUserSessions "u_alice" Scenario.busy_world.
Proof.
  apply (invalidateAllUserSessions_agree "u_alice" Scenario.busy_world).
  apply (bool_decide_unpack _). reflexivity.
Defined.

(** X5.  [updateSessionExpiry] on an id with no session record throws
    "Session not found" and changes nothing.  On a session that exists it
    sets [expires] to [now + newExpiry] and returns the updated session; it
    does not look at the old [expires], so an expired session that is still
    stored becomes valid again: it validates to its user at every time
    before the new expiry. *)
Theorem updateSessionExpiry_revives (now newExpiry : Z) (session_id : string) (w : World) :
  (findOne (λ s, (Session._id s =? session_id)%string) (SessionModel w) = None →
   MongoDBAuthAdapter.updateSessionExpiry now session_id newExpiry w
   = (Thrown (Error "Session not found"), w))
  ∧ (∀ session user now',
       findOne (λ s, (Session._id s =? session_id)%string) (SessionModel w) = Some session →
       findOne (MongoDBAuthAdapter.by_id (Session.user_id session)) (UserModel w) = Some user →
       now' < now + newExpiry →
       fst (MongoDBAuthAdapter.updateSessionExpiry now session_id newExpiry w)
       = Returned (Session.mk (Session._id session) (Session.user_id session)
                     (now + newExpiry))
       ∧ fst (MongoDBAuthAdapter.validateSession now' session_id
                (snd (MongoDBAuthAdapter.updateSessionExpiry now session_id newExpiry w)))
         = Returned (Some user)).
Proof.
  unfold MongoDBAuthAdapter.updateSessionExpiry, mbind, M_bind, gets, modify. simpl. split.
  - intros Hnone. rewrite (updateOne_no_match _ _ _ Hnone), Hnone. f_equal.
    apply set_sessions_fix. by apply updateOne_no_match.
  - intros session user now' Hfind Huser Hlive.
    assert (findOne (λ s, (Session._id s =? session_id)%string)
              (updateOne (λ s, (Session._id s =? session_id)%string)
                 (MongoDBAuthAdapter.set_expires (now + newExpiry)) (SessionModel w))
            = Some (MongoDBAuthAdapter.set_expires (now + newExpiry) session)) as Hupd.
    { apply findOne_updateOne; [done|]. by apply findOne_Some in Hfind as [_ Hq]. }
    rewrite Hupd. simpl. split; [done|].
    unfold MongoDBAuthAdapter.validateSession, mbind, M_bind, gets. simpl.
    rewrite Hupd. simpl.
    destruct (Z.leb_spec (now + newExpiry) now'); [lia|]. simpl. by rewrite Huser.
Qed.

(** The session "s1" of alice expired at time 5; at time 10 its expiry
    is moved by 100, and at time 50 it validates. *)
Lemma updateSessionExpiry_revives_witness :
  fst (MongoDBAuthAdapter.updateSessionExpiry 10 "s1" 100 Scenario.world)
  = Returned (Session.mk "s1" "u_alice" 110)
  ∧ fst (MongoDBAuthAdapter.validateSession 50 "s1"
           (snd (MongoDBAuthAdapter.updateSessionExpiry 10 "s1" 100 Scenario.world)))
    = Returned (Some Scenario.alice).
Proof.
  assert (50 < 10 + 100) as Hlive by lia.
  exact (proj2 (updateSessionExpiry_revives 10 100 "s1" Scenario.world)
           Scenario.stale_session Scenario.alice 50 eq_refl eq_refl Hlive).
Defined.

(** ** Tokens *)

(** X6.  A token of the MongoDB adapter, issued with a fresh string for
    a user and a positive lifetime.  Before it expires, [validateToken]
    reports it valid and changes nothing; [consumeToken] by the same user
    reports it valid and removes it, so the store is again what it was
    before the issue.  Asked by another user (for whom no such token is
    stored), [consumeToken] reports "Token does not exist" and leaves the
    token in place. *)
Theorem mongo_token_lifecycle (now now' ttl : Z) (tokenString user_id other email : string)
    (w : World) :
  findOne (MongoDBAuthAdapter.token_query tokenString user_id) (TokenModel w) = None →
  findOne (MongoDBAuthAdapter.token_query tokenString other) (TokenModel w) = None →
  other ≠ user_id →
  now' < now + ttl →
  let issued := snd (MongoDBAuthAdapter.createToken now tokenString user_id email ttl w) in
  MongoDBAuthAdapter.validateToken now' now' tokenString user_id issued
  = (Returned {| MongoDBAuthAdapter.status := true;
                 MongoDBAuthAdapter.reason := "Token is valid" |}, issued)
  ∧ MongoDBAuthAdapter.consumeToken now' now' tokenString other issued
    = (Returned {| MongoDBAuthAdapter.status := false;
                   MongoDBAuthAdapter.reason := "Token does not exist" |}, issued)
  ∧ MongoDBAuthAdapter.consumeToken now' now' tokenString user_id issued
    = (Returned {| MongoDBAuthAdapter.status := true;
                   MongoDBAuthAdapter.reason := "Token is valid" |}, w).
Proof.
  intros Hfresh Hother Hne Hlive issued.
  set (t := Token.mk user_id tokenString (Some email) None (now + ttl)).
  assert (MongoDBAuthAdapter.token_query tokenString user_id t = true) as Hq.
  { unfold MongoDBAuthAdapter.token_query. simpl. by rewrite !String.eqb_refl. }
  destruct (findOne_app_fresh _ _ _ Hfresh Hq) as (Hfind & Hdel & _ & _).
  assert ((now' <? now + ttl) = true) as Hexp by (apply Z.ltb_lt; lia).
  assert (findOne (MongoDBAuthAdapter.token_query tokenString other) (TokenModel w ++ [t])
          = None) as Hnone.
  { apply filter_no_match. rewrite List.filter_app.
    apply filter_no_match in Hother as ->. simpl.
    unfold MongoDBAuthAdapter.token_query. simpl.
    apply string_eqb_neq in Hne. rewrite String.eqb_sym in Hne.
    by rewrite Hne, andb_false_r. }
  split; [|split].
  - unfold MongoDBAuthAdapter.validateToken, mbind, M_bind, gets. subst issued. simpl.
    fold t. rewrite Hfind. simpl. by rewrite Hexp.
  - rewrite mongo_consumeToken_run. subst issued. simpl. fold t. rewrite Hnone. f_equal.
    apply set_tokens_fix. simpl. fold t. by apply deleteOne_no_match.
  - rewrite mongo_consumeToken_run. subst issued. simpl. fold t.
    rewrite Hfind. simpl. rewrite Hexp. f_equal.
    destruct w. unfold set_tokens. simpl in *. fold t. by rewrite Hdel.
Qed.

Lemma mongo_token_lifecycle_witness :
  MongoDBAuthAdapter.validateToken 200 200 "7a1e" "u_alice" Scenario.world_invited
  = (Returned {| MongoDBAuthAdapter.status := true;
                 MongoDBAuthAdapter.reason := "Token is valid" |}, Scenario.world_invited)
  ∧ MongoDBAuthAdapter.consumeToken 200 200 "7a1e" "u_root" Scenario.world_invited
    = (Returned {| MongoDBAuthAdapter.status := false;
                   MongoDBAuthAdapter.reason := "Token does not exist" |},
       Scenario.world_invited)
  ∧ MongoDBAuthAdapter.consumeToken 200 200 "7a1e" "u_alice" Scenario.world_invited
    = (Returned {| MongoDBAuthAdapter.status := true;
                   MongoDBAuthAdapter.reason := "Token is valid" |}, Scenario.world).
Proof.
  assert ("u_root" ≠ "u_alice") as Hne by discriminate.
  assert (200 < 100 + 3600) as Hlive by lia.
  exact (mongo_token_lifecycle 100 200 3600 "7a1e" "u_alice" "u_root" "a@x.com"
           Scenario.world eq_refl eq_refl Hne Hlive).
Defined.

(** X7.  Consumption is single-use.  In the Drizzle adapter, after any
    [consumeToken], a second one with the same arguments reports "Token
    does not exist" and changes nothing, at any time.  In the MongoDB
    adapter one call removes exactly one of the matching records: the
    number of records that match drops by one when there is one, so a
    second call succeeds exactly when the token was stored twice. *)
Theorem consumeToken_single_use (now now' : Z) (token user_id type : string) (w : World) :
  DrizzleAuthAdapter.consumeToken now' token user_id type
    (snd (DrizzleAuthAdapter.consumeToken now token user_id type w))
  = (Returned {| MongoDBAuthAdapter.status := false;
                 MongoDBAuthAdapter.reason := "Token does not exist" |},
     snd (DrizzleAuthAdapter.consumeToken now token user_id type w))
  ∧ length (List.filter (MongoDBAuthAdapter.token_query token user_id)
              (TokenModel (snd (MongoDBAuthAdapter.consumeToken now now token user_id w))))
    = Nat.pred (length (List.filter (MongoDBAuthAdapter.token_query token user_id)
                          (TokenModel w))).
Proof.
  split.
  - rewrite !drizzle_consumeToken_run. simpl.
    assert (findOne (DrizzleAuthAdapter.token_query token user_id type)
              (deleteMany (DrizzleAuthAdapter.token_query token user_id type) (TokenModel w))
            = None) as Hnone.
    { apply filter_no_match. apply filter_none. apply deleteMany_clean. }
    rewrite Hnone. f_equal. apply set_tokens_fix. by apply deleteMany_no_match.
  - rewrite mongo_consumeToken_run. simpl.
    induction (TokenModel w) as [|t ts IH]; simpl; [done|].
    destruct (MongoDBAuthAdapter.token_query token user_id t) eqn:Hq; simpl; [done|].
    by rewrite Hq.
Qed.

(** ** The registry of roles and permissions *)

(** [checkUserPermission] of the adapter only reads. *)
Lemma mongo_checkUserPermission_reads (user_id requiredAction : string) (w : World) :
  ∃ b, MongoDBAuthAdapter.checkUserPermission user_id requiredAction w = (Returned b, w).
Proof. unfold MongoDBAuthAdapter.checkUserPermission, gets. eauto. Qed.

Lemma may_manage_both_reads (u : string) (w : World) :
  ∃ b, MongoDBAuthAdapter.may_manage_both u w = (Returned b, w)
       ∧ (b = true ↔
          fst (MongoDBAuthAdapter.checkUserPermission u "manage_roles" w) = Returned true
          ∧ fst (MongoDBAuthAdapter.checkUserPermission u "manage_permissions" w)
            = Returned true).
Proof.
  unfold MongoDBAuthAdapter.may_manage_both, mbind, M_bind.
  destruct (mongo_checkUserPermission_reads u "manage_roles" w) as [b1 H1].
  destruct (mongo_checkUserPermission_reads u "manage_permissions" w) as [b2 H2].
  rewrite H1. destruct b1; unfold negb; cbv beta iota.
  - exists b2. rewrite H2. simpl. split; [done|]. split.
    + intros ->. done.
    + intros [_ [= ->]]. done.
  - exists false. rewrite H2. simpl. split; [done|]. split; [done|]. intros [[=] _].
Qed.

(** X8.  Every mutating call of the registry is gated: when the acting
    user lacks one of the capabilities the call asks for ([manage_roles]
    for the role calls, [manage_permissions] for the permission calls, both
    for assigning and removing), the call throws an "Unauthorized: ..."
    error and the whole state is as before. *)
Theorem registry_calls_gated (c : RegistryCall) (w : World) (requiredAction : string) :
  requiredAction ∈ required_actions c →
  fst (MongoDBAuthAdapter.checkUserPermission (acting_user c) requiredAction w)
  = Returned false →
  ∃ reason, perform c w = (Thrown (Error reason), w)
            ∧ String.prefix "Unauthorized: User does not have permission to " reason = true.
Proof.
  intros Hin Hdenied.
  assert (∀ a, requiredAction ∈ [a] →
            MongoDBAuthAdapter.checkUserPermission (acting_user c) a w = (Returned false, w))
    as Hcheck.
  { intros a Ha. apply list_elem_of_singleton in Ha as <-.
    destruct (mongo_checkUserPermission_reads (acting_user c) requiredAction w) as [b Hb].
    rewrite Hb in Hdenied |- *. simpl in Hdenied. congruence. }
  assert (requiredAction ∈ ["manage_roles"; "manage_permissions"] →
          MongoDBAuthAdapter.may_manage_both (acting_user c) w = (Returned false, w)) as Hboth.
  { intros Hcase. destruct (may_manage_both_reads (acting_user c) w) as (b & Hb & Hiff).
    rewrite Hb. destruct b; [|done]. destruct Hiff as [Hiff _].
    destruct (Hiff eq_refl) as [H1 H2].
    apply list_elem_of_In in Hcase; destruct Hcase as [<-|[<-|[]]];
      congruence. }
  clear Hdenied.
  destruct c; simpl in Hin, Hcheck, Hboth; unfold perform;
    unfold MongoDBAuthAdapter.createRole, MongoDBAuthAdapter.updateRole,
      MongoDBAuthAdapter.deleteRole, MongoDBAuthAdapter.createPermission,
      MongoDBAuthAdapter.updatePermission, MongoDBAuthAdapter.deletePermission,
      MongoDBAuthAdapter.assignPermissionToRole,
      MongoDBAuthAdapter.removePermissionFromRole, mbind, M_bind;
    cbv beta;
    first [ rewrite (Hcheck _ Hin) | rewrite (Hboth Hin) ];
    simpl; eexists; split; reflexivity.
Qed.

(** The editor alice tries to delete the role of the editors. *)
Lemma registry_calls_gated_witness :
  ∃ reason, perform (DeleteRole "r_editor" "u_alice") Scenario.world
            = (Thrown (Error reason), Scenario.world)
            ∧ String.prefix "Unauthorized: User does not have permission to " reason = true.
Proof.
  apply (registry_calls_gated (DeleteRole "r_editor" "u_alice") Scenario.world "manage_roles").
  - apply list_elem_of_here.
  - reflexivity.
Defined.

Lemma elem_of_populate {A} (key : A → string) (docs : list A) (refs : list string) (d : A) :
  d ∈ MongoDBAuthAdapter.populate key docs refs ↔
  ∃ ref, ref ∈ refs ∧ findOne (λ x, (key x =? ref)%string) docs = Some d.
Proof. unfold MongoDBAuthAdapter.populate. apply list_elem_of_omap. Qed.

Lemma elem_of_addToSet (x : string) (l : list string) :
  x ∈ MongoDBAuthAdapter.addToSet x l.
Proof.
  unfold MongoDBAuthAdapter.addToSet.
  destruct (existsb (String.eqb x) l) eqn:Hex.
  - apply existsb_elem_of in Hex as (y & Hy & Heq). by apply String.eqb_eq in Heq as ->.
  - apply elem_of_app. right. apply list_elem_of_here.
Qed.

Lemma not_elem_of_pull (x : string) (l : list string) :
  x ∉ MongoDBAuthAdapter.pull x l.
Proof.
  unfold MongoDBAuthAdapter.pull. rewrite list_elem_of_In, List.filter_In.
  intros [_ H]. by rewrite String.eqb_refl in H.
Qed.

(** X9.  The round trip of an assignment, for a user who may manage
    roles and permissions.  After [assignPermissionToRole] on a role and a
    permission that exist, the call has returned and
    [getPermissionsForRole] lists the permission.  After
    [removePermissionFromRole], [getPermissionsForRole] lists no permission
    with that id. *)
Theorem assignment_round_trip (role_id permission_id currentUserId : string) (w : World)
    (role : Role.t) (permission : Permission.t) :
  MongoDBAuthAdapter.may_manage_both currentUserId w = (Returned true, w) →
  findOne (MongoDBAuthAdapter.role_by_id role_id) (RoleModel w) = Some role →
  findOne (MongoDBAuthAdapter.permission_by_id permission_id) (PermissionModel w)
  = Some permission →
  (∃ w1 listed,
     MongoDBAuthAdapter.assignPermissionToRole role_id permission_id currentUserId w
     = (Returned tt, w1)
     ∧ fst (MongoDBAuthAdapter.getPermissionsForRole role_id w1) = Returned listed
     ∧ permission ∈ listed)
  ∧ (∃ w2 listed,
       MongoDBAuthAdapter.removePermissionFromRole role_id permission_id currentUserId w
       = (Returned tt, w2)
       ∧ fst (MongoDBAuthAdapter.getPermissionsForRole role_id w2) = Returned listed
       ∧ ∀ p, p ∈ listed → Permission._id p ≠ permission_id).
Proof.
  intros Hmay Hrole Hperm.
  pose proof (findOne_Some _ _ _ Hrole) as [_ Hrq].
  split.
  - assert (findOne (MongoDBAuthAdapter.role_by_id role_id)
              (updateOne (MongoDBAuthAdapter.role_by_id role_id)
                 (MongoDBAuthAdapter.with_permissions
                    (MongoDBAuthAdapter.addToSet permission_id)) (RoleModel w))
            = Some (MongoDBAuthAdapter.with_permissions
                      (MongoDBAuthAdapter.addToSet permission_id) role)) as Hupd
      by (by apply findOne_updateOne).
    eexists _, _.
    unfold MongoDBAuthAdapter.assignPermissionToRole.
    unfold mbind at 1. unfold M_bind at 1. rewrite Hmay. simpl.
    unfold mbind, M_bind, gets, modify, exists_. simpl.
    assert (existsb (MongoDBAuthAdapter.role_by_id role_id) (RoleModel w) = true) as ->.
    { apply existsb_elem_of. exists role. by apply findOne_Some in Hrole. }
    simpl.
    assert (existsb (MongoDBAuthAdapter.permission_by_id permission_id) (PermissionModel w)
            = true) as ->.
    { apply existsb_elem_of. exists permission. by apply findOne_Some in Hperm. }
    simpl. rewrite Hupd. split; [reflexivity|].
    unfold MongoDBAuthAdapter.getPermissionsForRole, gets. simpl. rewrite Hupd.
    split; [reflexivity|].
    apply elem_of_populate. exists permission_id. split; [|exact Hperm].
    simpl. apply elem_of_addToSet.
  - assert (findOne (MongoDBAuthAdapter.role_by_id role_id)
              (updateOne (MongoDBAuthAdapter.role_by_id role_id)
                 (MongoDBAuthAdapter.with_permissions
                    (MongoDBAuthAdapter.pull permission_id)) (RoleModel w))
            = Some (MongoDBAuthAdapter.with_permissions
                      (MongoDBAuthAdapter.pull permission_id) role)) as Hupd
      by (by apply findOne_updateOne).
    eexists _, _.
    unfold MongoDBAuthAdapter.removePermissionFromRole.
    unfold mbind at 1. unfold M_bind at 1. rewrite Hmay. simpl.
    split; [reflexivity|].
    unfold MongoDBAuthAdapter.getPermissionsForRole, gets. simpl. rewrite Hupd.
    split; [reflexivity|].
    intros p Hp Hid. apply elem_of_populate in Hp as (ref & Href & Hfind).
    apply findOne_Some in Hfind as [_ Hq]. apply String.eqb_eq in Hq.
    simpl in Href. rewrite <- Hq, Hid in Href. by apply not_elem_of_pull in Href.
Qed.

(** root gives the editors the permission to manage users, and takes
    from them the permission on posts. *)
Lemma assignment_round_trip_witness :
  (∃ w1 listed,
     MongoDBAuthAdapter.assignPermissionToRole "r_editor" "manage_users" "u_root"
       Scenario.world = (Returned tt, w1)
     ∧ fst (MongoDBAuthAdapter.getPermissionsForRole "r_editor" w1) = Returned listed
     ∧ Scenario.manage_users ∈ listed)
  ∧ (∃ w2 listed,
       MongoDBAuthAdapter.removePermissionFromRole "r_editor" "manage_users" "u_root"
         Scenario.world = (Returned tt, w2)
       ∧ fst (MongoDBAuthAdapter.getPermissionsForRole "r_editor" w2) = Returned listed
       ∧ ∀ p, p ∈ listed → Permission._id p ≠ "manage_users").
Proof.
  exact (assignment_round_trip "r_editor" "manage_users" "u_root" Scenario.world
           Scenario.editor_role Scenario.manage_users eq_refl eq_refl eq_refl).
Defined.

(** X10.  [assignPermissionToRole] by a user who may manage roles and
    permissions: when no role has the id it throws "Role ... not found",
    when the role exists and no permission has the id it throws "Permission
    ... not found"; in both cases nothing is changed. *)
Theorem assignPermissionToRole_missing (role_id permission_id currentUserId : string)
    (w : World) :
  MongoDBAuthAdapter.may_manage_both currentUserId w = (Returned true, w) →
  (findOne (MongoDBAuthAdapter.role_by_id role_id) (RoleModel w) = None →
   MongoDBAuthAdapter.assignPermissionToRole role_id permission_id currentUserId w
   = (Thrown (Error ("Role " +:+ role_id +:+ " not found")), w))
  ∧ (is_Some (findOne (MongoDBAuthAdapter.role_by_id role_id) (RoleModel w)) →
     findOne (MongoDBAuthAdapter.permission_by_id permission_id) (PermissionModel w) = None →
     MongoDBAuthAdapter.assignPermissionToRole role_id permission_id currentUserId w
     = (Thrown (Error ("Permission " +:+ permission_id +:+ " not found")), w)).
Proof.
  intros Hmay.
  assert (∀ {A} (q : A → bool) l, findOne q l = None → existsb q l = false) as Hno.
  { intros A q l Hnone. apply not_true_is_false. intros Hex.
    apply existsb_elem_of in Hex as (x & Hx & Hq).
    apply filter_no_match in Hnone.
    assert (x ∈ List.filter q l) as Hin
      by (apply list_elem_of_In, List.filter_In; by rewrite <- list_elem_of_In).
    rewrite Hnone in Hin. by apply not_elem_of_nil in Hin. }
  split.
  - intros Hnone. unfold MongoDBAuthAdapter.assignPermissionToRole.
    unfold mbind at 1. unfold M_bind at 1. rewrite Hmay. simpl.
    unfold mbind, M_bind, gets, exists_. simpl. by rewrite (Hno _ _ _ Hnone).
  - intros [role Hrole] Hnone. unfold MongoDBAuthAdapter.assignPermissionToRole.
    unfold mbind at 1. unfold M_bind at 1. rewrite Hmay. simpl.
    unfold mbind, M_bind, gets, exists_. simpl.
    assert (existsb (MongoDBAuthAdapter.role_by_id role_id) (RoleModel w) = true) as ->.
    { apply existsb_elem_of. exists role. by apply findOne_Some in Hrole. }
    simpl. by rewrite (Hno _ _ _ Hnone).
Qed.

Lemma assignPermissionToRole_missing_witness :
  MongoDBAuthAdapter.assignPermissionToRole "r_ghost" "posts" "u_root" Scenario.world
  = (Thrown (Error "Role r_ghost not found"), Scenario.world)
  ∧ MongoDBAuthAdapter.assignPermissionToRole "r_editor" "ghost" "u_root" Scenario.world
    = (Thrown (Error "Permission ghost not found"), Scenario.world).
Proof.
  split.
  - exact (proj1 (assignPermissionToRole_missing "r_ghost" "posts" "u_root" Scenario.world
                    eq_refl) eq_refl).
  - apply (proj2 (assignPermissionToRole_missing "r_editor" "ghost" "u_root" Scenario.world
                    eq_refl)).
    + by eexists.
    + reflexivity.
Defined.

Lemma findOne_updateOne_other {A} (q q' : A → bool) (f : A → A) (docs : list A) :
  (∀ d, q (f d) = q d) →
  findOne q (updateOne q' f docs) = findOne q docs
  ∨ findOne q (updateOne q' f docs) = f <$> findOne q docs.
Proof.
  intros Hq. unfold findOne. induction docs as [|d ds IH]; simpl; [by left|].
  destruct (q' d); simpl.
  - rewrite Hq. destruct (q d); [by right|by left].
  - destruct (q d); [by left|exact IH].
Qed.

(** X11.  A permission assigned to a user directly never changes an
    answer of [checkUserPermission] of the adapter: the check populates the
    roles of the user and their permissions, the direct permissions stay
    references with no [action], so for every user and action the answer
    after [assignPermissionToUser] is the answer before. *)
Theorem direct_permission_never_grants (user_id permission_id asked requiredAction : string)
    (w : World) :
  fst (MongoDBAuthAdapter.checkUserPermission asked requiredAction
         (snd (MongoDBAuthAdapter.assignPermissionToUser user_id permission_id w)))
  = fst (MongoDBAuthAdapter.checkUserPermission asked requiredAction w).
Proof.
  unfold MongoDBAuthAdapter.checkUserPermission, MongoDBAuthAdapter.assignPermissionToUser,
    gets, modify. simpl. f_equal.
  assert (∀ l, existsb (λ p, bool_decide (MongoDBAuthAdapter.action_of_reference p
                                           = Some requiredAction)) l = false) as Hdirect.
  { induction l; [done|]. simpl. exact IHl. }
  destruct (findOne_updateOne_other (MongoDBAuthAdapter.by_id asked)
              (MongoDBAuthAdapter.by_id user_id)
              (MongoDBAuthAdapter.with_user_permissions
                 (MongoDBAuthAdapter.addToSet permission_id)) (UserModel w)) as [->| ->];
    [done|done|].
  destruct (findOne (MongoDBAuthAdapter.by_id asked) (UserModel w)) as [u|]; [|done].
  simpl. by rewrite !Hdirect.
Qed.

(** X12.  [assignRoleToUser] takes no acting user and checks nothing.
    Once it has given a user a role whose name is "admin" (in any letter
    case), [checkUserPermission] of the adapter answers [true] to that user
    for every action. *)
Theorem assignRoleToUser_escalates (user_id role_id requiredAction : string) (w : World)
    (user : User.t) (role : Role.t) :
  findOne (MongoDBAuthAdapter.by_id user_id) (UserModel w) = Some user →
  findOne (MongoDBAuthAdapter.role_by_id role_id) (RoleModel w) = Some role →
  toLowerCase (Role.name role) = "admin" →
  fst (MongoDBAuthAdapter.checkUserPermission user_id requiredAction
         (snd (MongoDBAuthAdapter.assignRoleToUser user_id role_id w)))
  = Returned true.
Proof.
  intros Huser Hrole Hname.
  unfold MongoDBAuthAdapter.checkUserPermission, MongoDBAuthAdapter.assignRoleToUser,
    gets, modify. simpl.
  erewrite findOne_updateOne; [|exact Huser|by apply findOne_Some in Huser as [_ Hq]].
  simpl.
  assert (existsb (λ role, (toLowerCase (Role.name role) =? "admin")%string)
            (MongoDBAuthAdapter.populate Role._id (RoleModel w)
               (MongoDBAuthAdapter.addToSet role_id (User.roles user))) = true) as ->;
    [|done].
  apply existsb_elem_of. exists role. split; [|by apply String.eqb_eq].
  apply elem_of_populate. exists role_id. split; [apply elem_of_addToSet|exact Hrole].
Qed.

(** bob, who holds no role, is given the role of the administrators. *)
Lemma assignRoleToUser_escalates_witness :
  fst (MongoDBAuthAdapter.checkUserPermission "u_bob" "manage_roles"
         (snd (MongoDBAuthAdapter.assignRoleToUser "u_bob" "r_admin" Scenario.busy_world)))
  = Returned true.
Proof.
  exact (assignRoleToUser_escalates "u_bob" "r_admin" "manage_roles" Scenario.busy_world
           Scenario.bob Scenario.admin_role eq_refl eq_refl eq_refl).
Defined.

(** X13.  [initializeDefaultRolesAndPermissions] never changes the
    registry.  When roles or permissions exist it returns at once.  When
    there are none it starts creating the default roles, but it calls
    [createRole] without an acting user, the permission check of that call
    fails, and the method throws "Unauthorized: User does not have
    permission to manage roles": no role and no permission is created,
    whatever the rest of the method would do. *)
Theorem initialize_creates_nothing (ids : string * string * string * string)
    (rest : list Role.t → M World unit) (w : World) :
  MongoDBAuthAdapter.initializeDefaultRolesAndPermissions ids rest w
  = (match RoleModel w, PermissionModel w with
     | [], [] =>
       Thrown (Error "Unauthorized: User does not have permission to manage roles")
     | _, _ => Returned tt
     end, w).
Proof.
  unfold MongoDBAuthAdapter.initializeDefaultRolesAndPermissions, try_catch,
    MongoDBAuthAdapter.getAllRoles, MongoDBAuthAdapter.getAllPermissions,
    mbind, M_bind, gets. simpl.
  destruct ids as [[[a b] c] d].
  destruct (RoleModel w) as [|r rs]; simpl; [|done].
  destruct (PermissionModel w) as [|p ps]; simpl; [|done].
  unfold MongoDBAuthAdapter.createRole_undefined,
    MongoDBAuthAdapter.checkUserPermission_undefined, mbind, M_bind, gets.
  assert (findOne (λ _ : User.t, false) (UserModel w) = None) as ->; [|done].
  unfold findOne. induction (UserModel w) as [|u us IH]; [done|exact IH].
Qed.

(** ** The cache of role permissions *)

(** X14.  [getCachedRolePermissions] on a role that is not cached.  When
    the adapter finds the role, the result is the list of the permissions
    of the store whose ids the role holds, and it is cached under the role
    name: every later read of that role returns the same list and changes
    nothing, whatever adapter and store it is given.  When the adapter
    finds no role of that name, the result is the empty list and it is not
    cached: the cache is as before. *)
Theorem getCachedRolePermissions_memoises (adapter : authDBInterface)
    (permissionStore : list Permission.t) (role : string) (w w0 : World) :
  rolePermissionCache w !! role = None →
  (∀ found,
     getRoleByName adapter role w = (Returned (Some found), w0) →
     let resolved :=
       List.filter (λ p, PermissionCheck.includes (Role.permissions found) (Permission._id p))
                   permissionStore in
     let cached := set_cache (λ c, <[role := resolved]> c) w0 in
     PermissionCheck.getCachedRolePermissions (Some adapter) permissionStore role w
     = (Returned resolved, cached)
     ∧ (∀ adapter' store',
          PermissionCheck.getCachedRolePermissions adapter' store' role cached
          = (Returned resolved, cached)))
  ∧ (getRoleByName adapter role w = (Returned None, w0) →
     fst (PermissionCheck.getCachedRolePermissions (Some adapter) permissionStore role w)
     = Returned []
     ∧ rolePermissionCache
         (snd (PermissionCheck.getCachedRolePermissions (Some adapter) permissionStore role w))
       = rolePermissionCache w0).
Proof.
  intros Hmiss. split.
  - intros found Hfound. cbv zeta. split.
    + unfold PermissionCheck.getCachedRolePermissions, mbind, M_bind, gets, try_catch.
      rewrite Hmiss, Hfound. done.
    + intros adapter' store'. apply getCachedRolePermissions_hit.
      simpl. apply lookup_insert_eq.
  - intros Hnone.
    unfold PermissionCheck.getCachedRolePermissions, mbind, M_bind, gets, try_catch.
    rewrite Hmiss, Hnone. done.
Qed.

(** The first read of the editors, and a read of a role that no
    document has, against the permissions that [getAllPermissions] of
    config/permissions.ts returns. *)
Lemma getCachedRolePermissions_memoises_witness :
  (PermissionCheck.getCachedRolePermissions (Some mongoAdapter) placeholderStore "editor"
     Scenario.world
   = (Returned [], set_cache (λ c, <["editor" := []]> c) Scenario.world)
   ∧ ∀ adapter' store',
       PermissionCheck.getCachedRolePermissions adapter' store' "editor"
         (set_cache (λ c, <["editor" := []]> c) Scenario.world)
       = (Returned [], set_cache (λ c, <["editor" := []]> c) Scenario.world))
  ∧ fst (PermissionCheck.getCachedRolePermissions (Some mongoAdapter) placeholderStore "ghost"
           Scenario.world) = Returned []
  ∧ rolePermissionCache
      (snd (PermissionCheck.getCachedRolePermissions (Some mongoAdapter) placeholderStore
              "ghost" Scenario.world))
    = rolePermissionCache Scenario.world.
Proof.
  split.
  - exact (proj1 (getCachedRolePermissions_memoises mongoAdapter placeholderStore
                    "editor" Scenario.world Scenario.world eq_refl)
             (MongoDBAuthAdapter.populated Scenario.world Scenario.editor_role)
             eq_refl).
  - exact (proj2 (getCachedRolePermissions_memoises mongoAdapter placeholderStore
                    "ghost" Scenario.world Scenario.world eq_refl) eq_refl).
Defined.

(** ** The configuration modules *)

(** X15.  [registerPermissions] adds to the set of registered ids the
    ids of the permissions that are present and have a non-empty [_id], and
    nothing else: no id is ever removed, and registering the same
    permissions again changes nothing. *)
Theorem registerPermissions_union (newPermissions : list (option Permission.t))
    (permissions : gset string) :
  PermissionRegistry.registerPermissions newPermissions permissions
  = (Returned tt, permissions ∪ list_to_set (accepted_ids newPermissions))
  ∧ permissions ⊆ snd (PermissionRegistry.registerPermissions newPermissions permissions)
  ∧ PermissionRegistry.registerPermissions newPermissions
      (snd (PermissionRegistry.registerPermissions newPermissions permissions))
    = (Returned tt, snd (PermissionRegistry.registerPermissions newPermissions permissions)).
Proof.
  assert (∀ ps S, PermissionRegistry.registerPermissions ps S
                  = (Returned tt, S ∪ list_to_set (accepted_ids ps))) as Hrun.
  { induction ps as [|p ps IH]; intros S; simpl.
    - f_equal. set_solver.
    - unfold mbind, M_bind. unfold accepted_ids. simpl.
      destruct p as [p|]; simpl.
      + destruct (Permission._id p =? "")%string eqn:Hid; simpl.
        * apply IH.
        * unfold mbind, M_bind, gets, modify. simpl.
          case_bool_decide as Hin; simpl; rewrite IH; f_equal;
            fold (accepted_ids ps); set_solver.
      + apply IH. }
  rewrite !Hrun. simpl. split; [done|]. split; [set_solver|]. f_equal. set_solver.
Qed.

Lemma includes_elem_of (l : list string) (x : string) :
  PermissionCheck.includes l x = true ↔ x ∈ l.
Proof.
  unfold PermissionCheck.includes. rewrite existsb_elem_of. split.
  - intros (y & Hy & Heq). by apply String.eqb_eq in Heq as ->.
  - intros Hx. exists x. split; [done|apply String.eqb_refl].
Qed.

(** X16.  [addPermissionToRole] of [config/roles.ts]: for a role id
    that the array holds, the first role with that id holds the permission
    afterwards, and its list is extended only when the permission was not
    in it, so a list without duplicates stays without duplicates; for an
    unknown role id nothing changes; adding the same permission twice is
    adding it once. *)
Theorem addPermissionToRole_once (roleId permissionId : string)
    (roles : list ConfigRoles.RoleEntry) :
  let after := snd (ConfigRoles.addPermissionToRole roleId permissionId roles) in
  (findOne (λ r, (ConfigRoles._id r =? roleId)%string) roles = None → after = roles)
  ∧ (∀ role, findOne (λ r, (ConfigRoles._id r =? roleId)%string) roles = Some role →
       ∃ role', findOne (λ r, (ConfigRoles._id r =? roleId)%string) after = Some role'
                ∧ permissionId ∈ ConfigRoles.permissions role'
                ∧ (NoDup (ConfigRoles.permissions role) →
                   NoDup (ConfigRoles.permissions role'))
                ∧ (permissionId ∈ ConfigRoles.permissions role → after = roles))
  ∧ snd (ConfigRoles.addPermissionToRole roleId permissionId after) = after.
Proof.
  intros after.
  assert (∀ rs role, findOne (λ r, (ConfigRoles._id r =? roleId)%string) rs = Some role →
            permissionId ∈ ConfigRoles.permissions role →
            snd (ConfigRoles.addPermissionToRole roleId permissionId rs) = rs) as Hkeep.
  { intros rs role Hfind Hin. unfold ConfigRoles.addPermissionToRole,
      ConfigRoles.getRoleById, mbind, M_bind, gets. rewrite Hfind.
    apply includes_elem_of in Hin. by rewrite Hin. }
  assert (∀ rs, findOne (λ r, (ConfigRoles._id r =? roleId)%string) rs = None →
            snd (ConfigRoles.addPermissionToRole roleId permissionId rs) = rs) as Hnone.
  { intros rs Hfind. unfold ConfigRoles.addPermissionToRole,
      ConfigRoles.getRoleById, mbind, M_bind, gets. by rewrite Hfind. }
  assert (∀ role, findOne (λ r, (ConfigRoles._id r =? roleId)%string) roles = Some role →
            ∃ role', findOne (λ r, (ConfigRoles._id r =? roleId)%string) after = Some role'
                     ∧ permissionId ∈ ConfigRoles.permissions role'
                     ∧ (NoDup (ConfigRoles.permissions role) →
                        NoDup (ConfigRoles.permissions role'))) as Hsome.
  { intros role Hfind. subst after.
    destruct (PermissionCheck.includes (ConfigRoles.permissions role) permissionId) eqn:Hinc.
    - exists role. apply includes_elem_of in Hinc.
      rewrite (Hkeep _ _ Hfind Hinc). done.
    - exists (ConfigRoles.push permissionId role).
      unfold ConfigRoles.addPermissionToRole, ConfigRoles.getRoleById,
        mbind, M_bind, gets, modify. rewrite Hfind, Hinc. simpl.
      split; [|split].
      + apply findOne_updateOne; [done|]. by apply findOne_Some in Hfind as [_ Hq].
      + apply elem_of_app. right. apply list_elem_of_here.
      + intros Hnd. apply NoDup_app. split; [done|]. split; [|apply NoDup_singleton].
        intros x Hx Hx'. apply list_elem_of_singleton in Hx' as ->.
        apply includes_elem_of in Hx. congruence. }
  split; [apply Hnone|]. split.
  - intros role Hfind. destruct (Hsome role Hfind) as (role' & Hf & Hin & Hnd).
    exists role'. split; [done|]. split; [done|]. split; [done|].
    intros Hin0. subst after. by apply Hkeep with role.
  - destruct (findOne (λ r, (ConfigRoles._id r =? roleId)%string) roles) as [role|] eqn:Hfind.
    + destruct (Hsome role eq_refl) as (role' & Hf & Hin & _). by apply Hkeep with role'.
    + subst after. rewrite (Hnone _ Hfind). by apply Hnone.
Qed.

(** The editors of the shipped array are given the permission
    "posts". *)
Lemma addPermissionToRole_once_witness :
  ∃ role',
    findOne (λ r, (ConfigRoles._id r =? "editor")%string)
      (snd (ConfigRoles.addPermissionToRole "editor" "posts"
              (ConfigRoles.roles Scenario.store))) = Some role'
    ∧ "posts" ∈ ConfigRoles.permissions role'
    ∧ (NoDup ([] : list string) → NoDup (ConfigRoles.permissions role'))
    ∧ ("posts" ∈ ([] : list string) →
       snd (ConfigRoles.addPermissionToRole "editor" "posts"
              (ConfigRoles.roles Scenario.store)) = ConfigRoles.roles Scenario.store).
Proof.
  exact (proj1 (proj2 (addPermissionToRole_once "editor" "posts"
                         (ConfigRoles.roles Scenario.store)))
           {| ConfigRoles._id := "editor"; ConfigRoles.name := "Editor";
              ConfigRoles.description := "Can create, read, and update content";
              ConfigRoles.isAdmin := None; ConfigRoles.permissions := [] |}
           eq_refl).
Defined.

(** ** Themes and drafts *)

Lemma filter_default_unset (themes : list MongoDBAdapter.ThemeDocument) :
  List.filter MongoDBAdapter.isDefault (map (MongoDBAdapter.set_default false) themes) = [].
Proof. induction themes as [|t ts IH]; [done|exact IH]. Qed.

Lemma findOne_map_name (themeName : string) (themes : list MongoDBAdapter.ThemeDocument) :
  findOne (λ t, (MongoDBAdapter.theme_name t =? themeName)%string)
    (map (MongoDBAdapter.set_default false) themes)
  = MongoDBAdapter.set_default false
      <$> findOne (λ t, (MongoDBAdapter.theme_name t =? themeName)%string) themes.
Proof.
  unfold findOne. induction themes as [|t ts IH]; [done|]. simpl.
  destruct (MongoDBAdapter.theme_name t =? themeName)%string; [done|exact IH].
Qed.

Lemma filter_updateOne_single {A} (q p : A → bool) (f : A → A) (docs : list A) (d : A) :
  List.filter p docs = [] → findOne q docs = Some d → p (f d) = true →
  List.filter p (updateOne q f docs) = [f d].
Proof.
  unfold findOne. intros Hnone Hfind Hp.
  induction docs as [|x xs IH]; simpl in *; [done|].
  destruct (p x) eqn:Hpx; [done|].
  destruct (q x).
  - injection Hfind as ->. simpl. by rewrite Hp, Hnone.
  - simpl. rewrite Hpx. by apply IH.
Qed.

(** X17.  [setDefaultTheme] first unsets the default flag of every
    theme and then sets it on the first theme of the given name.  When such
    a theme exists the call returns and exactly one theme is the default,
    that one.  When no theme has the name the call throws "Error setting
    default theme: Theme with name ... not found.", and the flags stay
    unset: no theme is the default any more. *)
Theorem setDefaultTheme_single (themeName : string) (c : MongoDBAdapter.Content) :
  (∀ theme,
     findOne (λ t, (MongoDBAdapter.theme_name t =? themeName)%string) (MongoDBAdapter.Theme c)
     = Some theme →
     fst (MongoDBAdapter.setDefaultTheme themeName c) = Returned tt
     ∧ List.filter MongoDBAdapter.isDefault
         (MongoDBAdapter.Theme (snd (MongoDBAdapter.setDefaultTheme themeName c)))
       = [MongoDBAdapter.set_default true theme])
  ∧ (findOne (λ t, (MongoDBAdapter.theme_name t =? themeName)%string) (MongoDBAdapter.Theme c)
     = None →
     fst (MongoDBAdapter.setDefaultTheme themeName c)
     = Thrown (Error ("Error setting default theme: Theme with name " +:+ themeName
                      +:+ " not found."))
     ∧ MongoDBAdapter.Theme (snd (MongoDBAdapter.setDefaultTheme themeName c))
       = map (MongoDBAdapter.set_default false) (MongoDBAdapter.Theme c)).
Proof.
  unfold MongoDBAdapter.setDefaultTheme, try_catch, mbind, M_bind, gets, modify,
    MongoDBAdapter.modifiedCount. simpl.
  rewrite findOne_map_name. split.
  - intros theme Hfind. rewrite Hfind. simpl.
    destruct (decide _) as [Heq|_]; [by inversion Heq|]. simpl. split; [done|].
    rewrite (filter_updateOne_single _ _ _ _ (MongoDBAdapter.set_default false theme));
      [done|apply filter_default_unset|by rewrite findOne_map_name, Hfind|done].
  - intros Hnone. rewrite Hnone. simpl. split; [done|].
    apply updateOne_no_match. by rewrite findOne_map_name, Hnone.
Qed.

(** "dark" becomes the default; then a theme that does not exist is
    asked for, and "light" is no longer the default. *)
Lemma setDefaultTheme_single_witness :
  (fst (MongoDBAdapter.setDefaultTheme "dark" Scenario.content) = Returned tt
   ∧ List.filter MongoDBAdapter.isDefault
       (MongoDBAdapter.Theme (snd (MongoDBAdapter.setDefaultTheme "dark" Scenario.content)))
     = [MongoDBAdapter.set_default true Scenario.dark])
  ∧ (fst (MongoDBAdapter.setDefaultTheme "neon" Scenario.content)
     = Thrown (Error "Error setting default theme: Theme with name neon not found.")
     ∧ MongoDBAdapter.Theme (snd (MongoDBAdapter.setDefaultTheme "neon" Scenario.content))
       = map (MongoDBAdapter.set_default false) (MongoDBAdapter.Theme Scenario.content)).
Proof.
  split.
  - exact (proj1 (setDefaultTheme_single "dark" Scenario.content) Scenario.dark eq_refl).
  - exact (proj2 (setDefaultTheme_single "neon" Scenario.content) eq_refl).
Defined.



(** ** The page of the collections *)

(** X19.  [load] of the collection page.  Without a session cookie (or
    with an empty one) it redirects to "/login".  It returns page data only
    for a user whose role is "admin" and whose session record exists: the
    user is the stored document that the session names, and the state is
    unchanged.  With a cookie whose session record is gone, it neither
    redirects nor answers 404: the error of [Auth.validateSession]
    escapes. *)
Theorem collection_load (ObjectId_isValid : string → bool) (cookie : option string)
    (w : World) :
  (truthy cookie = false →
   CollectionPage.load ObjectId_isValid cookie w
   = (CollectionPage.HttpRedirect 302 "/login", w))
  ∧ (∀ user w',
       CollectionPage.load ObjectId_isValid cookie w = (CollectionPage.PageData user, w') →
       w' = w ∧ User.role user = "admin"
       ∧ ∃ session_id session,
           cookie = Some session_id
           ∧ findOne (λ s, (Session._id s =? session_id)%string) (SessionModel w)
             = Some session
           ∧ findOne (MongoDBAuthAdapter.by_id (Session.user_id session)) (UserModel w)
             = Some user)
  ∧ (∀ session_id,
       cookie = Some session_id → session_id ≠ "" →
       ObjectId_isValid session_id = true →
       findOne (λ s, (Session._id s =? session_id)%string) (SessionModel w) = None →
       CollectionPage.load ObjectId_isValid cookie w
       = (CollectionPage.Crash
            (TypeError "Cannot read properties of null (reading 'user_id')"), w)).
Proof.
  unfold CollectionPage.load. split; [|split].
  - intros Hfalsy. by rewrite Hfalsy.
  - intros user w'. destruct (truthy cookie) eqn:Htruthy; simpl; [|done].
    destruct cookie as [session_id|]; [|done]. simpl.
    unfold Auth.validateSession, Auth.delete_id, mbind, M_bind, gets, throw.
    destruct (ObjectId_isValid session_id); simpl; [|done].
    destruct (findOne _ (SessionModel w)) as [session|] eqn:Hs; simpl; [|done].
    destruct (findOne _ (UserModel w)) as [stored|] eqn:Hu; simpl; [|done].
    destruct (User.role stored =? "admin")%string eqn:Hrole; simpl; [|done].
    intros [= <- <-]. split; [done|]. split; [by apply String.eqb_eq|].
    by exists session_id, session.
  - intros session_id -> Hne Hvalid Hnone. simpl.
    apply string_eqb_neq in Hne. rewrite Hne. simpl.
    unfold Auth.validateSession, mbind, M_bind, gets, throw.
    rewrite Hvalid. simpl. by rewrite Hnone.
Qed.

(** root opens the page with the cookie of a stored session; a cookie
    of a session that is gone crashes the page. *)
Lemma collection_load_witness :
  CollectionPage.load Scenario.accept_all None Scenario.root_world
  = (CollectionPage.HttpRedirect 302 "/login", Scenario.root_world)
  ∧ (Scenario.root_world = Scenario.root_world
     ∧ User.role Scenario.root = "admin"
     ∧ ∃ session_id session,
         Some "s4" = Some session_id
         ∧ findOne (λ s, (Session._id s =? session_id)%string)
             (SessionModel Scenario.root_world) = Some session
         ∧ findOne (MongoDBAuthAdapter.by_id (Session.user_id session))
             (UserModel Scenario.root_world) = Some Scenario.root)
  ∧ CollectionPage.load Scenario.accept_all (Some "s7") Scenario.root_world
    = (CollectionPage.Crash
         (TypeError "Cannot read properties of null (reading 'user_id')"),
       Scenario.root_world).
Proof.
  split; [|split].
  - exact (proj1 (collection_load Scenario.accept_all None Scenario.root_world) eq_refl).
  - exact (proj1 (proj2 (collection_load Scenario.accept_all (Some "s4") Scenario.root_world))
             Scenario.root Scenario.root_world eq_refl).
  - assert ("s7" ≠ "") as Hne by discriminate.
    exact (proj2 (proj2 (collection_load Scenario.accept_all (Some "s7") Scenario.root_world))
             "s7" eq_refl Hne eq_refl eq_refl).
Defined.

(** ** The permission guard *)

(** X20.  What [PermissionGuard] renders.  Without a configuration it
    shows "Permission configuration is missing", whoever the user is.  With
    one, an entry of the page's permissions that is rate limited shows the
    rate-limit message, also to an administrator; and when nothing is rate
    limited, the content is shown exactly to an administrator
    ([user.role.isAdmin === true]) or when the entry grants the
    permission. *)
Theorem guard_render (config : PermissionConfig.t) (user : option PermissionGuard.GuardUser)
    (permissions : gmap string PermissionGuard.PermissionData)
    (entry : PermissionGuard.PermissionData) :
  PermissionConfig.contextId config ≠ "" →
  permissions !! PermissionConfig.contextId config = Some entry →
  PermissionGuard.render None user (Some permissions) = PermissionGuard.ConfigurationMissing
  ∧ (PermissionGuard.isRateLimited entry = Some true →
     PermissionGuard.render (Some config) user (Some permissions)
     = PermissionGuard.RateLimitReached)
  ∧ (PermissionGuard.isRateLimited entry ≠ Some true →
     (PermissionGuard.render (Some config) user (Some permissions) = PermissionGuard.Slot ↔
      (user ≫= PermissionGuard.role) ≫= PermissionGuard.isAdmin = Some true
      ∨ PermissionGuard.hasPermission entry = Some true)
     ∧ (PermissionGuard.render (Some config) user (Some permissions)
        ≠ PermissionGuard.RateLimitReached)).
Proof.
  intros Hid Hentry. split; [done|].
  unfold PermissionGuard.render. simpl.
  apply string_eqb_neq in Hid. rewrite Hid, Hentry. simpl.
  unfold PermissionGuard.or_false.
  split.
  - intros ->. simpl. by rewrite andb_false_r.
  - intros Hfree.
    assert (default false (PermissionGuard.isRateLimited entry) = false) as ->.
    { destruct (PermissionGuard.isRateLimited entry) as [[]|]; done. }
    rewrite andb_true_r.
    case_bool_decide as Hadmin; simpl.
    + split; [|done]. split; [by left|done].
    + destruct (PermissionGuard.hasPermission entry) as [[]|]; simpl.
      * split; [|done]. split; [by right|done].
      * split; [|done]. split; [done|]. intros [?|?]; done.
      * split; [|done]. split; [done|]. intros [?|?]; done.
Qed.

(** ** Users *)

Lemma findOne_deleteOne_unique (user_id : string) (users : list User.t) :
  NoDup (User._id <$> users) →
  findOne (MongoDBAuthAdapter.by_id user_id)
    (deleteOne (MongoDBAuthAdapter.by_id user_id) users) = None.
Proof.
  unfold findOne. induction users as [|u us IH]; simpl; [done|].
  intros Hnd. apply NoDup_cons in Hnd as [Hu Hnd].
  destruct (MongoDBAuthAdapter.by_id user_id u) eqn:Hq; simpl.
  - destruct (List.find _ us) as [u'|] eqn:Hfind; [|done].
    apply List.find_some in Hfind as [Hin Hq'].
    unfold MongoDBAuthAdapter.by_id in *.
    apply bool_decide_eq_true in Hq, Hq'.
    exfalso. apply Hu. rewrite Hq, <- Hq'.
    apply list_elem_of_fmap. exists u'. split; [done|]. by apply list_elem_of_In.
  - rewrite Hq. by apply IH.
Qed.

(** X21.  [Auth.deleteUser] removes the user record and nothing else:
    the sessions and tokens of the user stay.  With user ids that are
    pairwise different, a session of the deleted user then makes
    [Auth.validateSession] return [null] (the "user record not found"
    branch), not the user. *)
Theorem auth_deleteUser_no_cascade (ObjectId_isValid : string → bool)
    (id session_id : string) (w : World) (session : Session.t) :
  NoDup (User._id <$> UserModel w) →
  ObjectId_isValid session_id = true →
  findOne (λ s, (Session._id s =? session_id)%string) (SessionModel w) = Some session →
  Session.user_id session = id →
  SessionModel (snd (Auth.deleteUser id w)) = SessionModel w
  ∧ TokenModel (snd (Auth.deleteUser id w)) = TokenModel w
  ∧ Auth.validateSession ObjectId_isValid session_id (snd (Auth.deleteUser id w))
    = (Returned None, snd (Auth.deleteUser id w)).
Proof.
  intros Hnd Hvalid Hsession Hid. split; [done|]. split; [done|].
  unfold Auth.validateSession, Auth.deleteUser, mbind, M_bind, gets, modify.
  rewrite Hvalid. simpl. rewrite Hsession, Hid. simpl.
  by rewrite findOne_deleteOne_unique.
Qed.

Lemma auth_deleteUser_no_cascade_witness :
  SessionModel (snd (Auth.deleteUser "u_alice" Scenario.busy_world))
  = SessionModel Scenario.busy_world
  ∧ TokenModel (snd (Auth.deleteUser "u_alice" Scenario.busy_world))
    = TokenModel Scenario.busy_world
  ∧ Auth.validateSession Scenario.accept_all "s2"
      (snd (Auth.deleteUser "u_alice" Scenario.busy_world))
    = (Returned None, snd (Auth.deleteUser "u_alice" Scenario.busy_world)).
Proof.
  apply (auth_deleteUser_no_cascade Scenario.accept_all "u_alice" "s2" Scenario.busy_world
           Scenario.live_session).
  - apply (bool_decide_unpack _). reflexivity.
  - reflexivity.
  - reflexivity.
  - reflexivity.
Defined.

Lemma guard_render_witness :
  PermissionGuard.render None (Some Scenario.guard_admin) (Some Scenario.page_permissions)
  = PermissionGuard.ConfigurationMissing
  ∧ PermissionGuard.render (Some Scenario.update_posts) (Some Scenario.guard_admin)
      (Some Scenario.page_permissions)
    = PermissionGuard.RateLimitReached.
Proof.
  assert (PermissionConfig.contextId Scenario.update_posts ≠ "") as Hid by discriminate.
  pose proof (guard_render Scenario.update_posts (Some Scenario.guard_admin)
                Scenario.page_permissions
                {| PermissionGuard.hasPermission := Some true;
                   PermissionGuard.isRateLimited := Some true |} Hid eq_refl)
    as (Hmissing & Hlimited & _).
  split; [exact Hmissing|exact (Hlimited eq_refl)].
Defined.



(** X23.  [Auth.updateUserAttributes] and the password.  A new password
    that is not empty is stored as its Argon2 hash.  An empty new password
    is falsy, so it skips the hashing and the update stores the empty
    string itself.  An update without a password keeps the stored one. *)
Theorem auth_updateUserAttributes_password (argon2_hash : string → string)
    (user stored : User.t) (attributes : UserPatch.t) (w : World) :
  findOne (Auth.same_id user) (UserModel w) = Some stored →
  User.password
    <$> findOne (Auth.same_id user)
          (UserModel (snd (Auth.updateUserAttributes argon2_hash user attributes w)))
  = Some match UserPatch.password attributes with
         | Some "" => Some ""
         | Some password => Some (argon2_hash password)
         | None => User.password stored
         end.
Proof.
  intros Hfind. pose proof (findOne_Some _ _ _ Hfind) as [_ Hq].
  unfold Auth.updateUserAttributes, modify. simpl.
  erewrite findOne_updateOne; [|exact Hfind|exact Hq]. simpl. f_equal.
  destruct attributes as [email [password|] role]; simpl; [|done].
  destruct password as [|a rest]; done.
Qed.

Lemma auth_updateUserAttributes_password_witness :
  User.password
    <$> findOne (Auth.same_id Scenario.alice)
          (UserModel (snd (Auth.updateUserAttributes Scenario.toy_hash Scenario.alice
                             (UserPatch.mk None (Some "") None) Scenario.world)))
  = Some (Some "").
Proof.
  exact (auth_updateUserAttributes_password Scenario.toy_hash Scenario.alice Scenario.alice
           (UserPatch.mk None (Some "") None) Scenario.world eq_refl).
Defined.

(** ** Connecting with no budget *)

(** X24.  With a budget of attempts that is zero or negative, [connect]
    does not enter its loop: it returns without an error and without a
    single call of [mongoose.connect].  The default budget is not affected
    by a setting of 0, which counts as unset and gives three attempts, but
    a negative [DB_RETRY_ATTEMPTS] is taken as it is. *)
Theorem connect_without_budget (env : MongoDBAdapter.privateEnv)
    (mongoose_connect : nat → option JsError) (attempts : Z) :
  attempts ≤ 0 →
  MongoDBAdapter.connect env mongoose_connect (Some attempts) = (Returned tt, [])
  ∧ (MongoDBAdapter.DB_RETRY_ATTEMPTS env = Some attempts → attempts < 0 →
     MongoDBAdapter.connect env mongoose_connect None = (Returned tt, []))
  ∧ (MongoDBAdapter.DB_RETRY_ATTEMPTS env = Some 0 →
     MongoDBAdapter.connect env mongoose_connect None
     = MongoDBAdapter.connect env mongoose_connect (Some 3)).
Proof.
  intros Hle. unfold MongoDBAdapter.connect. simpl. split; [|split].
  - rewrite connect_loop_unfold. by destruct (decide (0 < attempts)); [lia|].
  - intros -> Hneg. simpl. destruct (Z.eqb_spec attempts 0); [lia|].
    rewrite connect_loop_unfold. by destruct (decide (0 < attempts)); [lia|].
  - intros ->. done.
Qed.

Lemma connect_without_budget_witness :
  MongoDBAdapter.connect Scenario.env3 Scenario.always_down (Some (-1)) = (Returned tt, []).
Proof.
  assert (-1 ≤ 0) as Hle by lia.
  exact (proj1 (connect_without_budget Scenario.env3 Scenario.always_down (-1) Hle)).
Defined.
